(** * The VM thread (runtime/vm/thread.h)

    A shallow embedding of [class Thread]: the per-OS-thread execution
    context of the VM.  Inline member functions of the header are
    translated one by one; member functions that the header only declares
    are modelled from the specification and marked as such. *)

From Stdlib Require Import ZArith List Bool Lia.
Import ListNotations.

Local Open Scope Z_scope.

(** ** Machine-level types (vm/globals.h)

    Pointers and [uword] are word-sized integers; the null pointer is the
    word 0, which is what [memset (.., 0, ..)] produces. *)

Definition uword := Z.
Definition ptr := Z.
Definition NULL : ptr := 0.
Definition RawObject := Z.
Definition ThreadId := Z.

(** [INT_MAX] of a 32-bit [int]. *)
Definition INT_MAX : Z := 2147483647.

(** Value of a signed integer of [bits] bits after an arithmetic result
    [z] is stored into it (two's complement wrap-around). *)
Definition wrap_signed (bits z : Z) : Z :=
  (z + 2 ^ (bits - 1)) mod 2 ^ bits - 2 ^ (bits - 1).

Definition wrap_int32 (z : Z) : Z := wrap_signed 32 z.

(** ** The X-macro lists *)

(** [REUSABLE_HANDLE_LIST]: one constructor per [V(object)] line. *)
Inductive ReusableHandleKind : Type :=
| K_AbstractType
| K_Array
| K_Class
| K_Code
| K_Error
| K_ExceptionHandlers
| K_Field
| K_Function
| K_GrowableObjectArray
| K_Instance
| K_Library
| K_Object
| K_PcDescriptors
| K_String
| K_TypeArguments
| K_TypeParameter.

(** The list in the order in which the macro expands. *)
Definition REUSABLE_HANDLE_LIST : list ReusableHandleKind :=
  [ K_AbstractType; K_Array; K_Class; K_Code; K_Error; K_ExceptionHandlers;
    K_Field; K_Function; K_GrowableObjectArray; K_Instance; K_Library;
    K_Object; K_PcDescriptors; K_String; K_TypeArguments; K_TypeParameter ].

(** [CACHED_VM_OBJECTS_LIST] followed by [CACHED_ADDRESSES_LIST]. *)
Inductive CachedConstant : Type :=
| object_null_
| bool_true_
| bool_false_
| update_store_buffer_code_
| fix_callers_target_code_
| fix_allocation_stub_code_
| invoke_dart_code_stub_
| update_store_buffer_entry_point_
| native_call_wrapper_entry_point_
| predefined_symbols_address_.

Definition CACHED_CONSTANTS_LIST : list CachedConstant :=
  [ object_null_; bool_true_; bool_false_; update_store_buffer_code_;
    fix_callers_target_code_; fix_allocation_stub_code_;
    invoke_dart_code_stub_ ] ++
  [ update_store_buffer_entry_point_; native_call_wrapper_entry_point_;
    predefined_symbols_address_ ].

(** ** [Thread::State]

    The isolate-specific state that is saved and restored on isolate exit
    and re-entry.  The last three members exist in [DEBUG] builds only; the
    record carries them in every build and the release-build functions
    never read or write them. *)
Module State.

Record t : Type := mk {
  zone : ptr;
  top_exit_frame_info : uword;
  top_resource : ptr;
  timeline_block : ptr;
  long_jump_base : ptr;
  top_handle_scope : ptr;             (* DEBUG *)
  no_handle_scope_depth : Z;          (* DEBUG, intptr_t *)
  no_safepoint_scope_depth : Z        (* DEBUG, int32_t *)
}.

(** The record all of whose bytes are zero. *)
Definition zero : t := mk NULL 0 NULL NULL NULL NULL 0 0.

Definition set_zone (v : ptr) (s : t) : t :=
  mk v (top_exit_frame_info s) (top_resource s) (timeline_block s)
     (long_jump_base s) (top_handle_scope s) (no_handle_scope_depth s)
     (no_safepoint_scope_depth s).

Definition set_top_exit_frame_info (v : uword) (s : t) : t :=
  mk (zone s) v (top_resource s) (timeline_block s)
     (long_jump_base s) (top_handle_scope s) (no_handle_scope_depth s)
     (no_safepoint_scope_depth s).

Definition set_top_resource (v : ptr) (s : t) : t :=
  mk (zone s) (top_exit_frame_info s) v (timeline_block s)
     (long_jump_base s) (top_handle_scope s) (no_handle_scope_depth s)
     (no_safepoint_scope_depth s).

Definition set_timeline_block (v : ptr) (s : t) : t :=
  mk (zone s) (top_exit_frame_info s) (top_resource s) v
     (long_jump_base s) (top_handle_scope s) (no_handle_scope_depth s)
     (no_safepoint_scope_depth s).

Definition set_long_jump_base (v : ptr) (s : t) : t :=
  mk (zone s) (top_exit_frame_info s) (top_resource s) (timeline_block s)
     v (top_handle_scope s) (no_handle_scope_depth s)
     (no_safepoint_scope_depth s).

Definition set_top_handle_scope (v : ptr) (s : t) : t :=
  mk (zone s) (top_exit_frame_info s) (top_resource s) (timeline_block s)
     (long_jump_base s) v (no_handle_scope_depth s)
     (no_safepoint_scope_depth s).

Definition set_no_handle_scope_depth (v : Z) (s : t) : t :=
  mk (zone s) (top_exit_frame_info s) (top_resource s) (timeline_block s)
     (long_jump_base s) (top_handle_scope s) v
     (no_safepoint_scope_depth s).

Definition set_no_safepoint_scope_depth (v : Z) (s : t) : t :=
  mk (zone s) (top_exit_frame_info s) (top_resource s) (timeline_block s)
     (long_jump_base s) (top_handle_scope s) (no_handle_scope_depth s)
     v.

End State.

(** Decidable equality on handle kinds, used to update one flag. *)
Definition ReusableHandleKind_eqb (a b : ReusableHandleKind) : bool :=
  match a, b with
  | K_AbstractType, K_AbstractType
  | K_Array, K_Array
  | K_Class, K_Class
  | K_Code, K_Code
  | K_Error, K_Error
  | K_ExceptionHandlers, K_ExceptionHandlers
  | K_Field, K_Field
  | K_Function, K_Function
  | K_GrowableObjectArray, K_GrowableObjectArray
  | K_Instance, K_Instance
  | K_Library, K_Library
  | K_Object, K_Object
  | K_PcDescriptors, K_PcDescriptors
  | K_String, K_String
  | K_TypeArguments, K_TypeArguments
  | K_TypeParameter, K_TypeParameter => true
  | _, _ => false
  end.

(** Update of a total map at one key. *)
Definition upd {A B : Type} (eqb : A -> A -> bool)
    (f : A -> B) (k : A) (v : B) : A -> B :=
  fun k' => if eqb k' k then v else f k'.

(** Results of calls that can violate their contract: [None] stands for a
    failed consistency check, which is fatal. *)
Definition bind {A B : Type} (m : option A) (k : A -> option B) : option B :=
  match m with
  | Some a => k a
  | None => None
  end.

Notation "x <- m ;; k" := (bind m (fun x => k))
  (at level 61, m at next level, right associativity).

Section ThreadModel.

(** Build configuration and declarations of headers outside this file. *)

(** [#if defined(DEBUG)]. *)
Variable DEBUG : bool.

(** Number of bits of [intptr_t] and [uword] on the target. *)
Variable kBitsPerWord : Z.

(** [OSThread::kInvalidThreadId] (vm/os_thread.h). *)
Variable kInvalidThreadId : ThreadId.

(** The names listed by [RUNTIME_ENTRY_LIST] and [LEAF_RUNTIME_ENTRY_LIST]
    (vm/runtime_entry_list.h). *)
Variable RuntimeEntryName : Type.
Variable LeafRuntimeEntryName : Type.

(** [Mutex] (vm/os_thread.h). *)
Variable Mutex : Type.

(** [Object::null()], the reference stored in an empty handle. *)
Variable Object_null : RawObject.

(** Modelled from the spec: the [ASSERT] macro (platform/assert.h) is not
    part of this file.  A consistency check is fatal in a checked build and
    compiled out otherwise; the checked build is the [DEBUG] build. *)
Definition ASSERT (cond : bool) : option unit :=
  if DEBUG then (if cond then Some tt else None) else Some tt.

(** Policy argument of the store buffer operations
    ([StoreBuffer::ThresholdPolicy], vm/store_buffer.h): check the
    threshold, or proceed unconditionally. *)
Inductive ThresholdPolicy : Type :=
| kCheckThreshold
| kIgnoreThreshold.

(** ** The members of [class Thread], in declaration order.

    [store_buffer_block_] points to a block owned by this thread alone; the
    model keeps the block's contents, [None] being the null pointer.  The
    per-kind members generated from [REUSABLE_HANDLE_LIST],
    [CACHED_CONSTANTS_LIST] and the runtime entry lists are maps indexed by
    the list's names.  [reusable_handles_] is the storage the handle
    pointers point into, read through a pointer. *)
Record Thread : Type := mkThread {
  id_ : ThreadId;
  thread_interrupt_callback_ : ptr;
  thread_interrupt_data_ : ptr;
  isolate_ : ptr;
  heap_ : ptr;
  state_ : State.t;
  timeline_block_lock_ : Mutex;
  store_buffer_block_ : option (list RawObject);
  log_ : ptr;
  vm_tag_ : uword;
  cached_constant_ : CachedConstant -> uword;
  runtime_entry_point_ : RuntimeEntryName -> uword;
  leaf_runtime_entry_point_ : LeafRuntimeEntryName -> uword;
  handle_ : ReusableHandleKind -> ptr;
  reusable_handle_scope_active_ : ReusableHandleKind -> bool;   (* DEBUG *)
  reusable_handles_ : ptr -> RawObject
}.

Definition with_state_ (s : State.t) (t : Thread) : Thread :=
  mkThread (id_ t) (thread_interrupt_callback_ t) (thread_interrupt_data_ t)
    (isolate_ t) (heap_ t) s (timeline_block_lock_ t)
    (store_buffer_block_ t) (log_ t) (vm_tag_ t) (cached_constant_ t)
    (runtime_entry_point_ t) (leaf_runtime_entry_point_ t) (handle_ t)
    (reusable_handle_scope_active_ t) (reusable_handles_ t).

Definition with_vm_tag_ (v : uword) (t : Thread) : Thread :=
  mkThread (id_ t) (thread_interrupt_callback_ t) (thread_interrupt_data_ t)
    (isolate_ t) (heap_ t) (state_ t) (timeline_block_lock_ t)
    (store_buffer_block_ t) (log_ t) v (cached_constant_ t)
    (runtime_entry_point_ t) (leaf_runtime_entry_point_ t) (handle_ t)
    (reusable_handle_scope_active_ t) (reusable_handles_ t).

Definition with_isolate_ (v : ptr) (t : Thread) : Thread :=
  mkThread (id_ t) (thread_interrupt_callback_ t) (thread_interrupt_data_ t)
    v (heap_ t) (state_ t) (timeline_block_lock_ t)
    (store_buffer_block_ t) (log_ t) (vm_tag_ t) (cached_constant_ t)
    (runtime_entry_point_ t) (leaf_runtime_entry_point_ t) (handle_ t)
    (reusable_handle_scope_active_ t) (reusable_handles_ t).

Definition with_store_buffer_block_ (v : option (list RawObject))
    (t : Thread) : Thread :=
  mkThread (id_ t) (thread_interrupt_callback_ t) (thread_interrupt_data_ t)
    (isolate_ t) (heap_ t) (state_ t) (timeline_block_lock_ t)
    v (log_ t) (vm_tag_ t) (cached_constant_ t)
    (runtime_entry_point_ t) (leaf_runtime_entry_point_ t) (handle_ t)
    (reusable_handle_scope_active_ t) (reusable_handles_ t).

Definition with_thread_interrupter_ (callback data : ptr)
    (t : Thread) : Thread :=
  mkThread (id_ t) callback data
    (isolate_ t) (heap_ t) (state_ t) (timeline_block_lock_ t)
    (store_buffer_block_ t) (log_ t) (vm_tag_ t) (cached_constant_ t)
    (runtime_entry_point_ t) (leaf_runtime_entry_point_ t) (handle_ t)
    (reusable_handle_scope_active_ t) (reusable_handles_ t).

Definition with_reusable_handle_scope_active_
    (v : ReusableHandleKind -> bool) (t : Thread) : Thread :=
  mkThread (id_ t) (thread_interrupt_callback_ t) (thread_interrupt_data_ t)
    (isolate_ t) (heap_ t) (state_ t) (timeline_block_lock_ t)
    (store_buffer_block_ t) (log_ t) (vm_tag_ t) (cached_constant_ t)
    (runtime_entry_point_ t) (leaf_runtime_entry_point_ t) (handle_ t)
    v (reusable_handles_ t).

Definition with_reusable_handles_ (v : ptr -> RawObject)
    (t : Thread) : Thread :=
  mkThread (id_ t) (thread_interrupt_callback_ t) (thread_interrupt_data_ t)
    (isolate_ t) (heap_ t) (state_ t) (timeline_block_lock_ t)
    (store_buffer_block_ t) (log_ t) (vm_tag_ t) (cached_constant_ t)
    (runtime_entry_point_ t) (leaf_runtime_entry_point_ t) (handle_ t)
    (reusable_handle_scope_active_ t) v.

(** ** Inline member functions of the header *)

(** [Zone* zone() const]. *)
Definition zone (t : Thread) : ptr := State.zone (state_ t).

(** [Isolate* isolate() const]. *)
Definition isolate (t : Thread) : ptr := isolate_ t.

Definition top_exit_frame_info (t : Thread) : uword :=
  State.top_exit_frame_info (state_ t).

Definition top_resource (t : Thread) : ptr := State.top_resource (state_ t).

Definition set_top_resource (value : ptr) (t : Thread) : Thread :=
  with_state_ (State.set_top_resource value (state_ t)) t.

(** [int32_t no_handle_scope_depth() const]: the member is an [intptr_t],
    the result an [int32_t]. *)
Definition no_handle_scope_depth (t : Thread) : Z :=
  if DEBUG then wrap_int32 (State.no_handle_scope_depth (state_ t)) else 0.

Definition IncrementNoHandleScopeDepth (t : Thread) : option Thread :=
  if DEBUG then
    _ <- ASSERT (State.no_handle_scope_depth (state_ t) <? INT_MAX) ;;
    Some (with_state_
            (State.set_no_handle_scope_depth
               (wrap_signed kBitsPerWord
                  (State.no_handle_scope_depth (state_ t) + 1))
               (state_ t)) t)
  else Some t.

Definition DecrementNoHandleScopeDepth (t : Thread) : option Thread :=
  if DEBUG then
    _ <- ASSERT (State.no_handle_scope_depth (state_ t) >? 0) ;;
    Some (with_state_
            (State.set_no_handle_scope_depth
               (wrap_signed kBitsPerWord
                  (State.no_handle_scope_depth (state_ t) - 1))
               (state_ t)) t)
  else Some t.

Definition top_handle_scope (t : Thread) : ptr :=
  if DEBUG then State.top_handle_scope (state_ t) else 0.

Definition set_top_handle_scope (handle_scope : ptr) (t : Thread) : Thread :=
  if DEBUG then with_state_ (State.set_top_handle_scope handle_scope (state_ t)) t
  else t.

Definition no_safepoint_scope_depth (t : Thread) : Z :=
  if DEBUG then State.no_safepoint_scope_depth (state_ t) else 0.

Definition IncrementNoSafepointScopeDepth (t : Thread) : option Thread :=
  if DEBUG then
    _ <- ASSERT (State.no_safepoint_scope_depth (state_ t) <? INT_MAX) ;;
    Some (with_state_
            (State.set_no_safepoint_scope_depth
               (wrap_int32 (State.no_safepoint_scope_depth (state_ t) + 1))
               (state_ t)) t)
  else Some t.

Definition DecrementNoSafepointScopeDepth (t : Thread) : option Thread :=
  if DEBUG then
    _ <- ASSERT (State.no_safepoint_scope_depth (state_ t) >? 0) ;;
    Some (with_state_
            (State.set_no_safepoint_scope_depth
               (wrap_int32 (State.no_safepoint_scope_depth (state_ t) - 1))
               (state_ t)) t)
  else Some t.

Definition timeline_block (t : Thread) : ptr :=
  State.timeline_block (state_ t).

Definition set_timeline_block (block : ptr) (t : Thread) : Thread :=
  with_state_ (State.set_timeline_block block (state_ t)) t.

Definition long_jump_base (t : Thread) : ptr :=
  State.long_jump_base (state_ t).

Definition set_long_jump_base (value : ptr) (t : Thread) : Thread :=
  with_state_ (State.set_long_jump_base value (state_ t)) t.

Definition vm_tag (t : Thread) : uword := vm_tag_ t.

Definition set_vm_tag (tag : uword) (t : Thread) : Thread :=
  with_vm_tag_ tag t.

(** [ThreadId id() const]. *)
Definition id (t : Thread) : option ThreadId :=
  _ <- ASSERT (negb (id_ t =? kInvalidThreadId)) ;;
  Some (id_ t).

(** [REUSABLE_HANDLE_SCOPE_ACCESSORS(object)]; these members and
    [IsAnyReusableHandleScopeActive] are declared in [DEBUG] builds only. *)
Definition set_reusable_handle_scope_active (object : ReusableHandleKind)
    (value : bool) (t : Thread) : Thread :=
  with_reusable_handle_scope_active_
    (upd ReusableHandleKind_eqb (reusable_handle_scope_active_ t) object value)
    t.

Definition reusable_handle_scope_active (object : ReusableHandleKind)
    (t : Thread) : bool :=
  reusable_handle_scope_active_ t object.

(** The expansion of [IS_REUSABLE_HANDLE_SCOPE_ACTIVE] over a list of
    kinds: one [if (flag) return true;] per kind, then [return false]. *)
Fixpoint IS_REUSABLE_HANDLE_SCOPE_ACTIVE (objects : list ReusableHandleKind)
    (t : Thread) : bool :=
  match objects with
  | [] => false
  | object :: rest =>
      if reusable_handle_scope_active_ t object then true
      else IS_REUSABLE_HANDLE_SCOPE_ACTIVE rest t
  end.

Definition IsAnyReusableHandleScopeActive (t : Thread) : bool :=
  IS_REUSABLE_HANDLE_SCOPE_ACTIVE REUSABLE_HANDLE_LIST t.

(** [object& object##Handle() const { return *object##_handle_; }]. *)
Definition Handle (object : ReusableHandleKind) (t : Thread) : RawObject :=
  reusable_handles_ t (handle_ t object).

(** [memset(&state_, 0, sizeof(state_))]. *)
Definition ClearState (t : Thread) : Thread := with_state_ State.zero t.

Definition set_zone (zone : ptr) (t : Thread) : Thread :=
  with_state_ (State.set_zone zone (state_ t)) t.

Definition set_top_exit_frame_info (top_exit_frame_info : uword)
    (t : Thread) : Thread :=
  with_state_ (State.set_top_exit_frame_info top_exit_frame_info (state_ t)) t.

(** ** Static offset accessors

    [OFFSET_OF] (vm/globals.h) gives the byte offset of a member in its
    class; the layout is fixed by the compiler and taken as given. *)
Inductive ThreadMember : Type :=
| M_id_
| M_thread_interrupt_callback_
| M_thread_interrupt_data_
| M_isolate_
| M_heap_
| M_state_
| M_timeline_block_lock_
| M_store_buffer_block_
| M_log_
| M_vm_tag_
| M_cached_constant (c : CachedConstant)
| M_runtime_entry_point (name : RuntimeEntryName)
| M_leaf_runtime_entry_point (name : LeafRuntimeEntryName)
| M_handle (object : ReusableHandleKind)
| M_reusable_handle_scope_active (object : ReusableHandleKind)
| M_reusable_handles_.

Inductive StateMember : Type :=
| S_zone
| S_top_exit_frame_info
| S_top_resource
| S_timeline_block
| S_long_jump_base
| S_top_handle_scope
| S_no_handle_scope_depth
| S_no_safepoint_scope_depth.

Variable OFFSET_OF_Thread : ThreadMember -> Z.
Variable OFFSET_OF_State : StateMember -> Z.

Definition isolate_offset : Z := OFFSET_OF_Thread M_isolate_.

Definition store_buffer_block_offset : Z :=
  OFFSET_OF_Thread M_store_buffer_block_.

Definition top_exit_frame_info_offset : Z :=
  OFFSET_OF_Thread M_state_ + OFFSET_OF_State S_top_exit_frame_info.

Definition top_resource_offset : Z :=
  OFFSET_OF_Thread M_state_ + OFFSET_OF_State S_top_resource.

Definition heap_offset : Z := OFFSET_OF_Thread M_heap_.

Definition vm_tag_offset : Z := OFFSET_OF_Thread M_vm_tag_.

(** [DEFINE_OFFSET_METHOD] over [CACHED_CONSTANTS_LIST]. *)
Definition cached_constant_offset (member_name : CachedConstant) : Z :=
  OFFSET_OF_Thread (M_cached_constant member_name).

(** [DEFINE_OFFSET_METHOD] over [RUNTIME_ENTRY_LIST]. *)
Definition runtime_entry_point_offset (name : RuntimeEntryName) : Z :=
  OFFSET_OF_Thread (M_runtime_entry_point name).

(** [DEFINE_OFFSET_METHOD] over [LEAF_RUNTIME_ENTRY_LIST]. *)
Definition leaf_runtime_entry_point_offset (name : LeafRuntimeEntryName) : Z :=
  OFFSET_OF_Thread (M_leaf_runtime_entry_point name).

(** The static offset accessors of the class, by name. *)
Inductive OffsetMethod : Type :=
| isolate_offset_method
| store_buffer_block_offset_method
| top_exit_frame_info_offset_method
| top_resource_offset_method
| heap_offset_method
| vm_tag_offset_method
| cached_constant_offset_method (member_name : CachedConstant)
| runtime_entry_point_offset_method (name : RuntimeEntryName)
| leaf_runtime_entry_point_offset_method (name : LeafRuntimeEntryName).

Definition offset_method_body (m : OffsetMethod) : Z :=
  match m with
  | isolate_offset_method => isolate_offset
  | store_buffer_block_offset_method => store_buffer_block_offset
  | top_exit_frame_info_offset_method => top_exit_frame_info_offset
  | top_resource_offset_method => top_resource_offset
  | heap_offset_method => heap_offset
  | vm_tag_offset_method => vm_tag_offset
  | cached_constant_offset_method c => cached_constant_offset c
  | runtime_entry_point_offset_method n => runtime_entry_point_offset n
  | leaf_runtime_entry_point_offset_method n =>
      leaf_runtime_entry_point_offset n
  end.

(** ** Member functions declared in the header and defined elsewhere

    The header declares [EnterIsolate], [ExitIsolate], their helper
    variants, the store buffer operations, [PrepareForGC],
    [SetThreadInterrupter] and [ClearReusableHandles] without a body.  They
    act on the thread together with the isolates it attaches to. *)

(** Modelled from the spec: the three states of an execution context
    (section 4.2); the header has no member that records them. *)
Inductive AttachState : Type :=
| Detached
| AttachedAsMutator
| AttachedAsHelper.

(** Modelled from the spec: what the thread uses of an isolate (section 6):
    the registered mutator and helper contexts and the global write-barrier
    record sink.  The sink keeps every record it receives, in order. *)
Record IsolateData : Type := mkIsolateData {
  mutator_thread : option ThreadId;
  helper_threads : list ThreadId;
  store_buffer : list RawObject
}.

Definition with_mutator_thread (v : option ThreadId) (i : IsolateData)
    : IsolateData :=
  mkIsolateData v (helper_threads i) (store_buffer i).

Definition with_helper_threads (v : list ThreadId) (i : IsolateData)
    : IsolateData :=
  mkIsolateData (mutator_thread i) v (store_buffer i).

Definition with_store_buffer (v : list RawObject) (i : IsolateData)
    : IsolateData :=
  mkIsolateData (mutator_thread i) (helper_threads i) v.

(** One thread, its attach state, and the isolates by address. *)
Record VM : Type := mkVM {
  thread : Thread;
  attach : AttachState;
  isolates : ptr -> IsolateData
}.

Definition with_thread (t : Thread) (vm : VM) : VM :=
  mkVM t (attach vm) (isolates vm).

Definition with_isolate_data (isolate : ptr) (d : IsolateData) (vm : VM)
    : VM :=
  mkVM (thread vm) (attach vm) (upd Z.eqb (isolates vm) isolate d).

(** The isolate the thread operates on. *)
Definition current_isolate (vm : VM) : IsolateData :=
  isolates vm (isolate_ (thread vm)).

(** The configurable threshold of the store buffer (section 4.3). *)
Variable store_buffer_threshold : nat.

(** Modelled from the spec: [StoreBufferAcquire] pairs a fresh, empty
    buffer block in (section 4.3). *)
Definition StoreBufferAcquire (vm : VM) : VM :=
  with_thread (with_store_buffer_block_ (Some []) (thread vm)) vm.

(** Modelled from the spec: [StoreBufferRelease] hands the block, full or
    partially filled, to the isolate; no buffered entry is dropped
    (section 4.3).  Without a block the call violates its contract. *)
Definition StoreBufferRelease (policy : ThresholdPolicy) (vm : VM)
    : option VM :=
  match store_buffer_block_ (thread vm) with
  | None => None
  | Some block =>
      Some (with_thread (with_store_buffer_block_ None (thread vm))
              (with_isolate_data (isolate_ (thread vm))
                 (with_store_buffer
                    (store_buffer (current_isolate vm) ++ block)
                    (current_isolate vm))
                 vm))
  end.

(** Whether a call of [StoreBufferBlockProcess] flushes: unconditionally,
    or when the buffer exceeds the threshold (section 4.3). *)
Definition flush_due (policy : ThresholdPolicy) (block : list RawObject)
    : bool :=
  match policy with
  | kCheckThreshold => Nat.ltb store_buffer_threshold (length block)
  | kIgnoreThreshold => true
  end.

(** Modelled from the spec: [StoreBufferBlockProcess] flushes the buffer
    when it exceeds the threshold or unconditionally; a flush transfers
    the entries into the isolate-global record set and resets the local
    buffer to empty (section 4.3). *)
Definition StoreBufferBlockProcess (policy : ThresholdPolicy) (vm : VM)
    : option VM :=
  match store_buffer_block_ (thread vm) with
  | None => None
  | Some block =>
      if flush_due policy block then
        vm1 <- StoreBufferRelease policy vm ;;
        Some (StoreBufferAcquire vm1)
      else Some vm
  end.

(** Modelled from the spec: [StoreBufferAddObject] appends a reference to
    the thread-local buffer and checks the threshold, so that a flush is
    triggered once the threshold is exceeded (sections 4.3 and 8). *)
Definition StoreBufferAddObject (obj : RawObject) (vm : VM) : option VM :=
  match store_buffer_block_ (thread vm) with
  | None => None
  | Some block =>
      StoreBufferBlockProcess kCheckThreshold
        (with_thread
           (with_store_buffer_block_ (Some (block ++ [obj])) (thread vm)) vm)
  end.

(** Modelled from the spec: the variant used during collection appends
    without a threshold check (section 4.3). *)
Definition StoreBufferAddObjectGC (obj : RawObject) (vm : VM) : option VM :=
  match store_buffer_block_ (thread vm) with
  | None => None
  | Some block =>
      Some (with_thread
              (with_store_buffer_block_ (Some (block ++ [obj])) (thread vm))
              vm)
  end.

(** Modelled from the spec: [PrepareForGC] flushes the write-barrier
    buffer into the isolate's global record set (section 4.2). *)
Definition PrepareForGC (vm : VM) : option VM :=
  StoreBufferBlockProcess kIgnoreThreshold vm.

(** Modelled from the spec: [EnterIsolate] takes a detached context to
    [AttachedAsMutator]: it registers the context as the isolate's mutator,
    installs a fresh isolate-scoped state and pairs a buffer block in;
    entering while attached is a contract violation (section 4.2). *)
Definition EnterIsolate (isolate : ptr) (vm : VM) : option VM :=
  match attach vm with
  | Detached =>
      let t := with_isolate_ isolate (ClearState (thread vm)) in
      Some (StoreBufferAcquire
              (mkVM t AttachedAsMutator
                 (upd Z.eqb (isolates vm) isolate
                    (with_mutator_thread (Some (id_ t))
                       (isolates vm isolate)))))
  | _ => None
  end.

(** Modelled from the spec: [ExitIsolate] reverses [EnterIsolate]: it
    returns the buffer block, clears the state and deregisters; exiting
    while detached is a contract violation (section 4.2). *)
Definition ExitIsolate (vm : VM) : option VM :=
  match attach vm with
  | AttachedAsMutator =>
      vm1 <- StoreBufferRelease kCheckThreshold vm ;;
      let isolate := isolate_ (thread vm1) in
      Some (mkVM (with_isolate_ NULL (ClearState (thread vm1))) Detached
              (upd Z.eqb (isolates vm1) isolate
                 (with_mutator_thread None (isolates vm1 isolate))))
  | _ => None
  end.

(** Modelled from the spec: [EnterIsolateAsHelper] takes a detached context
    to [AttachedAsHelper], registering it as a helper (section 4.2). *)
Definition EnterIsolateAsHelper (isolate : ptr) (bypass_safepoint : bool)
    (vm : VM) : option VM :=
  match attach vm with
  | Detached =>
      let t := with_isolate_ isolate (ClearState (thread vm)) in
      Some (StoreBufferAcquire
              (mkVM t AttachedAsHelper
                 (upd Z.eqb (isolates vm) isolate
                    (with_helper_threads
                       (id_ t :: helper_threads (isolates vm isolate))
                       (isolates vm isolate)))))
  | _ => None
  end.

(** Removal of the first occurrence of a thread id. *)
Fixpoint remove_first (x : ThreadId) (l : list ThreadId) : list ThreadId :=
  match l with
  | [] => []
  | y :: rest => if y =? x then rest else y :: remove_first x rest
  end.

(** Modelled from the spec: [ExitIsolateAsHelper] reverses
    [EnterIsolateAsHelper] (section 4.2). *)
Definition ExitIsolateAsHelper (bypass_safepoint : bool) (vm : VM)
    : option VM :=
  match attach vm with
  | AttachedAsHelper =>
      vm1 <- StoreBufferRelease kCheckThreshold vm ;;
      let isolate := isolate_ (thread vm1) in
      Some (mkVM (with_isolate_ NULL (ClearState (thread vm1))) Detached
              (upd Z.eqb (isolates vm1) isolate
                 (with_helper_threads
                    (remove_first (id_ (thread vm1))
                       (helper_threads (isolates vm1 isolate)))
                    (isolates vm1 isolate))))
  | _ => None
  end.

(** Modelled from the spec: [SetThreadInterrupter] installs the sampling
    hook and its user data (section 4.7). *)
Definition SetThreadInterrupter (callback data : ptr) (t : Thread) : Thread :=
  with_thread_interrupter_ callback data t.

(** The statement [*object##_handle_ = object::null();] over a list of
    kinds. *)
Fixpoint CLEAR_REUSABLE_HANDLE (objects : list ReusableHandleKind)
    (t : Thread) : Thread :=
  match objects with
  | [] => t
  | object :: rest =>
      CLEAR_REUSABLE_HANDLE rest
        (with_reusable_handles_
           (upd Z.eqb (reusable_handles_ t) (handle_ t object) Object_null) t)
  end.

(** Modelled from the spec: [ClearReusableHandles] resets every pooled
    handle to the null reference (section 4.5). *)
Definition ClearReusableHandles (t : Thread) : Thread :=
  CLEAR_REUSABLE_HANDLE REUSABLE_HANDLE_LIST t.

(** ** Sequences of operations on one thread *)

Definition on_thread (f : Thread -> Thread) (vm : VM) : option VM :=
  Some (with_thread (f (thread vm)) vm).

Definition on_thread_checked (f : Thread -> option Thread) (vm : VM)
    : option VM :=
  t <- f (thread vm) ;; Some (with_thread t vm).

(** The state-changing member functions of the class. *)
Inductive Op : Type :=
| Op_set_top_resource (value : ptr)
| Op_IncrementNoHandleScopeDepth
| Op_DecrementNoHandleScopeDepth
| Op_set_top_handle_scope (handle_scope : ptr)
| Op_IncrementNoSafepointScopeDepth
| Op_DecrementNoSafepointScopeDepth
| Op_set_timeline_block (block : ptr)
| Op_set_long_jump_base (value : ptr)
| Op_set_vm_tag (tag : uword)
| Op_set_reusable_handle_scope_active (object : ReusableHandleKind)
    (value : bool)
| Op_ClearReusableHandles
| Op_ClearState
| Op_set_zone (zone : ptr)
| Op_set_top_exit_frame_info (top_exit_frame_info : uword)
| Op_SetThreadInterrupter (callback data : ptr)
| Op_EnterIsolate (isolate : ptr)
| Op_ExitIsolate
| Op_EnterIsolateAsHelper (isolate : ptr) (bypass_safepoint : bool)
| Op_ExitIsolateAsHelper (bypass_safepoint : bool)
| Op_PrepareForGC
| Op_StoreBufferAddObject (obj : RawObject)
| Op_StoreBufferAddObjectGC (obj : RawObject)
| Op_StoreBufferBlockProcess (policy : ThresholdPolicy).

Definition step (op : Op) (vm : VM) : option VM :=
  match op with
  | Op_set_top_resource v => on_thread (set_top_resource v) vm
  | Op_IncrementNoHandleScopeDepth =>
      on_thread_checked IncrementNoHandleScopeDepth vm
  | Op_DecrementNoHandleScopeDepth =>
      on_thread_checked DecrementNoHandleScopeDepth vm
  | Op_set_top_handle_scope v => on_thread (set_top_handle_scope v) vm
  | Op_IncrementNoSafepointScopeDepth =>
      on_thread_checked IncrementNoSafepointScopeDepth vm
  | Op_DecrementNoSafepointScopeDepth =>
      on_thread_checked DecrementNoSafepointScopeDepth vm
  | Op_set_timeline_block v => on_thread (set_timeline_block v) vm
  | Op_set_long_jump_base v => on_thread (set_long_jump_base v) vm
  | Op_set_vm_tag v => on_thread (set_vm_tag v) vm
  | Op_set_reusable_handle_scope_active k v =>
      on_thread (set_reusable_handle_scope_active k v) vm
  | Op_ClearReusableHandles => on_thread ClearReusableHandles vm
  | Op_ClearState => on_thread ClearState vm
  | Op_set_zone v => on_thread (set_zone v) vm
  | Op_set_top_exit_frame_info v => on_thread (set_top_exit_frame_info v) vm
  | Op_SetThreadInterrupter c d => on_thread (SetThreadInterrupter c d) vm
  | Op_EnterIsolate i => EnterIsolate i vm
  | Op_ExitIsolate => ExitIsolate vm
  | Op_EnterIsolateAsHelper i b => EnterIsolateAsHelper i b vm
  | Op_ExitIsolateAsHelper b => ExitIsolateAsHelper b vm
  | Op_PrepareForGC => PrepareForGC vm
  | Op_StoreBufferAddObject o => StoreBufferAddObject o vm
  | Op_StoreBufferAddObjectGC o => StoreBufferAddObjectGC o vm
  | Op_StoreBufferBlockProcess p => StoreBufferBlockProcess p vm
  end.

(** Runs the calls in order; the first contract violation ends the run. *)
Fixpoint run (ops : list Op) (vm : VM) : option VM :=
  match ops with
  | [] => Some vm
  | op :: rest => vm1 <- step op vm ;; run rest vm1
  end.

(** A call of a static offset accessor in a program state: the value it
    returns and the state it leaves. *)
Definition call_offset_method (m : OffsetMethod) (vm : VM) : Z * VM :=
  (offset_method_body m, vm).

(** Calls of [EnterIsolate] and [ExitIsolate]. *)
Inductive IsolateCall : Type :=
| Call_EnterIsolate (isolate : ptr)
| Call_ExitIsolate.

Definition op_of_call (c : IsolateCall) : Op :=
  match c with
  | Call_EnterIsolate i => Op_EnterIsolate i
  | Call_ExitIsolate => Op_ExitIsolate
  end.

(** Whether the last call of the sequence is an [EnterIsolate]. *)
Definition ends_with_EnterIsolate (calls : list IsolateCall) : bool :=
  match rev calls with
  | Call_EnterIsolate _ :: _ => true
  | _ => false
  end.

(** Whether the calls alternate, an [EnterIsolate] being expected first
    when [expect_enter] holds. *)
Fixpoint alternates (expect_enter : bool) (calls : list IsolateCall) : bool :=
  match calls with
  | [] => true
  | Call_EnterIsolate _ :: rest => expect_enter && alternates false rest
  | Call_ExitIsolate :: rest => negb expect_enter && alternates true rest
  end.

(** The nesting-depth operations. *)
Inductive DepthCall : Type :=
| Call_IncrementNoHandleScopeDepth
| Call_DecrementNoHandleScopeDepth
| Call_IncrementNoSafepointScopeDepth
| Call_DecrementNoSafepointScopeDepth.

Definition op_of_depth_call (c : DepthCall) : Op :=
  match c with
  | Call_IncrementNoHandleScopeDepth => Op_IncrementNoHandleScopeDepth
  | Call_DecrementNoHandleScopeDepth => Op_DecrementNoHandleScopeDepth
  | Call_IncrementNoSafepointScopeDepth => Op_IncrementNoSafepointScopeDepth
  | Call_DecrementNoSafepointScopeDepth => Op_DecrementNoSafepointScopeDepth
  end.

Definition DepthCall_eqb (a b : DepthCall) : bool :=
  match a, b with
  | Call_IncrementNoHandleScopeDepth, Call_IncrementNoHandleScopeDepth
  | Call_DecrementNoHandleScopeDepth, Call_DecrementNoHandleScopeDepth
  | Call_IncrementNoSafepointScopeDepth, Call_IncrementNoSafepointScopeDepth
  | Call_DecrementNoSafepointScopeDepth, Call_DecrementNoSafepointScopeDepth
      => true
  | _, _ => false
  end.

(** Number of occurrences of a call in a sequence. *)
Definition calls_of (c : DepthCall) (calls : list DepthCall) : Z :=
  Z.of_nat (length (filter (DepthCall_eqb c) calls)).

(** Both nesting counters lie in [[0, INT_MAX]]. *)
Definition depths_in_range (t : Thread) : Prop :=
  0 <= State.no_handle_scope_depth (state_ t) <= INT_MAX /\
  0 <= State.no_safepoint_scope_depth (state_ t) <= INT_MAX.

(** ** Frame conditions *)

(** Every member outside [state_] agrees. *)
Definition same_outside_state (t t' : Thread) : Prop :=
  id_ t' = id_ t /\
  thread_interrupt_callback_ t' = thread_interrupt_callback_ t /\
  thread_interrupt_data_ t' = thread_interrupt_data_ t /\
  isolate_ t' = isolate_ t /\
  heap_ t' = heap_ t /\
  timeline_block_lock_ t' = timeline_block_lock_ t /\
  store_buffer_block_ t' = store_buffer_block_ t /\
  log_ t' = log_ t /\
  vm_tag_ t' = vm_tag_ t /\
  cached_constant_ t' = cached_constant_ t /\
  runtime_entry_point_ t' = runtime_entry_point_ t /\
  leaf_runtime_entry_point_ t' = leaf_runtime_entry_point_ t /\
  handle_ t' = handle_ t /\
  reusable_handle_scope_active_ t' = reusable_handle_scope_active_ t /\
  reusable_handles_ t' = reusable_handles_ t.

(** Every member other than [vm_tag_] agrees. *)
Definition same_outside_vm_tag (t t' : Thread) : Prop :=
  id_ t' = id_ t /\
  thread_interrupt_callback_ t' = thread_interrupt_callback_ t /\
  thread_interrupt_data_ t' = thread_interrupt_data_ t /\
  isolate_ t' = isolate_ t /\
  heap_ t' = heap_ t /\
  state_ t' = state_ t /\
  timeline_block_lock_ t' = timeline_block_lock_ t /\
  store_buffer_block_ t' = store_buffer_block_ t /\
  log_ t' = log_ t /\
  cached_constant_ t' = cached_constant_ t /\
  runtime_entry_point_ t' = runtime_entry_point_ t /\
  leaf_runtime_entry_point_ t' = leaf_runtime_entry_point_ t /\
  handle_ t' = handle_ t /\
  reusable_handle_scope_active_ t' = reusable_handle_scope_active_ t /\
  reusable_handles_ t' = reusable_handles_ t.

(** The records of the isolate the thread operates on. *)
Definition global_records (vm : VM) : list RawObject :=
  store_buffer (current_isolate vm).

(** ** The inline mutators on their own *)

(** The value of a [State] member, by name. *)
Definition State_member (m : StateMember) (s : State.t) : Z :=
  match m with
  | S_zone => State.zone s
  | S_top_exit_frame_info => State.top_exit_frame_info s
  | S_top_resource => State.top_resource s
  | S_timeline_block => State.timeline_block s
  | S_long_jump_base => State.long_jump_base s
  | S_top_handle_scope => State.top_handle_scope s
  | S_no_handle_scope_depth => State.no_handle_scope_depth s
  | S_no_safepoint_scope_depth => State.no_safepoint_scope_depth s
  end.

(** [t'] is [t] with at most the [State] member [m] written. *)
Definition writes_only_State_member (m : StateMember) (t t' : Thread)
    : Prop :=
  (forall m', m' <> m ->
     State_member m' (state_ t') = State_member m' (state_ t)) /\
  same_outside_state t t'.

(** Every member other than the scope-active flags agrees. *)
Definition same_outside_scope_flags (t t' : Thread) : Prop :=
  id_ t' = id_ t /\
  thread_interrupt_callback_ t' = thread_interrupt_callback_ t /\
  thread_interrupt_data_ t' = thread_interrupt_data_ t /\
  isolate_ t' = isolate_ t /\
  heap_ t' = heap_ t /\
  state_ t' = state_ t /\
  timeline_block_lock_ t' = timeline_block_lock_ t /\
  store_buffer_block_ t' = store_buffer_block_ t /\
  log_ t' = log_ t /\
  vm_tag_ t' = vm_tag_ t /\
  cached_constant_ t' = cached_constant_ t /\
  runtime_entry_point_ t' = runtime_entry_point_ t /\
  leaf_runtime_entry_point_ t' = leaf_runtime_entry_point_ t /\
  handle_ t' = handle_ t /\
  reusable_handles_ t' = reusable_handles_ t.

(** The members no inline mutator assigns: everything but [state_],
    [vm_tag_] and the scope-active flags. *)
Definition same_fixed_members (t t' : Thread) : Prop :=
  id_ t' = id_ t /\
  thread_interrupt_callback_ t' = thread_interrupt_callback_ t /\
  thread_interrupt_data_ t' = thread_interrupt_data_ t /\
  isolate_ t' = isolate_ t /\
  heap_ t' = heap_ t /\
  timeline_block_lock_ t' = timeline_block_lock_ t /\
  store_buffer_block_ t' = store_buffer_block_ t /\
  log_ t' = log_ t /\
  cached_constant_ t' = cached_constant_ t /\
  runtime_entry_point_ t' = runtime_entry_point_ t /\
  leaf_runtime_entry_point_ t' = leaf_runtime_entry_point_ t /\
  handle_ t' = handle_ t /\
  reusable_handles_ t' = reusable_handles_ t.

(** The state-changing member functions that the header defines inline. *)
Inductive InlineOp : Type :=
| I_set_top_resource (value : ptr)
| I_IncrementNoHandleScopeDepth
| I_DecrementNoHandleScopeDepth
| I_set_top_handle_scope (handle_scope : ptr)
| I_IncrementNoSafepointScopeDepth
| I_DecrementNoSafepointScopeDepth
| I_set_timeline_block (block : ptr)
| I_set_long_jump_base (value : ptr)
| I_set_vm_tag (tag : uword)
| I_set_reusable_handle_scope_active (object : ReusableHandleKind)
    (value : bool)
| I_ClearState
| I_set_zone (zone : ptr)
| I_set_top_exit_frame_info (top_exit_frame_info : uword).

Definition op_of_inline (op : InlineOp) : Op :=
  match op with
  | I_set_top_resource v => Op_set_top_resource v
  | I_IncrementNoHandleScopeDepth => Op_IncrementNoHandleScopeDepth
  | I_DecrementNoHandleScopeDepth => Op_DecrementNoHandleScopeDepth
  | I_set_top_handle_scope v => Op_set_top_handle_scope v
  | I_IncrementNoSafepointScopeDepth => Op_IncrementNoSafepointScopeDepth
  | I_DecrementNoSafepointScopeDepth => Op_DecrementNoSafepointScopeDepth
  | I_set_timeline_block v => Op_set_timeline_block v
  | I_set_long_jump_base v => Op_set_long_jump_base v
  | I_set_vm_tag v => Op_set_vm_tag v
  | I_set_reusable_handle_scope_active k v =>
      Op_set_reusable_handle_scope_active k v
  | I_ClearState => Op_ClearState
  | I_set_zone v => Op_set_zone v
  | I_set_top_exit_frame_info v => Op_set_top_exit_frame_info v
  end.

(** The four functions that carry an assertion. *)
Definition is_depth_op (op : InlineOp) : bool :=
  match op with
  | I_IncrementNoHandleScopeDepth
  | I_DecrementNoHandleScopeDepth
  | I_IncrementNoSafepointScopeDepth
  | I_DecrementNoSafepointScopeDepth => true
  | _ => false
  end.

(** The functions that assign members of [state_] only. *)
Definition is_state_op (op : InlineOp) : bool :=
  match op with
  | I_set_vm_tag _
  | I_set_reusable_handle_scope_active _ _ => false
  | _ => true
  end.

(** The counter a depth call works on. *)
Definition counter_of (c : DepthCall) : StateMember :=
  match c with
  | Call_IncrementNoHandleScopeDepth
  | Call_DecrementNoHandleScopeDepth => S_no_handle_scope_depth
  | Call_IncrementNoSafepointScopeDepth
  | Call_DecrementNoSafepointScopeDepth => S_no_safepoint_scope_depth
  end.

(** Net change a sequence of depth calls asks for on each counter. *)
Definition net_handle_scope_depth (calls : list DepthCall) : Z :=
  calls_of Call_IncrementNoHandleScopeDepth calls
  - calls_of Call_DecrementNoHandleScopeDepth calls.

Definition net_safepoint_scope_depth (calls : list DepthCall) : Z :=
  calls_of Call_IncrementNoSafepointScopeDepth calls
  - calls_of Call_DecrementNoSafepointScopeDepth calls.

(** The value last written to a member by a sequence of inline mutators,
    starting from [init]: [ClearState] writes null to the members of
    [State] and leaves [vm_tag_] alone. *)
Definition latest_vm_tag (ops : list InlineOp) (init : uword) : uword :=
  fold_left
    (fun tag op => match op with I_set_vm_tag v => v | _ => tag end)
    ops init.

Definition latest_top_resource (ops : list InlineOp) (init : ptr) : ptr :=
  fold_left
    (fun r op =>
       match op with
       | I_set_top_resource v => v
       | I_ClearState => NULL
       | _ => r
       end)
    ops init.

Definition latest_long_jump_base (ops : list InlineOp) (init : ptr) : ptr :=
  fold_left
    (fun r op =>
       match op with
       | I_set_long_jump_base v => v
       | I_ClearState => NULL
       | _ => r
       end)
    ops init.

(** The states a run of [EnterIsolate]/[ExitIsolate] calls passes through
    when it starts detached. *)
Definition attach_invariant (vm : VM) : Prop :=
  attach vm = Detached \/
  (attach vm = AttachedAsMutator /\
   exists block, store_buffer_block_ (thread vm) = Some block).

Definition expects_EnterIsolate (vm : VM) : bool :=
  match attach vm with
  | Detached => true
  | _ => false
  end.

(** ** Example states

    A thread that has not entered an isolate: no isolate, no buffer block,
    cleared state, empty handles; and a machine around it whose isolates
    have no registered thread and no record. *)
Definition example_thread (id : ThreadId) (lock : Mutex) : Thread :=
  mkThread id NULL NULL NULL NULL State.zero lock None NULL 0
    (fun _ => 0) (fun _ => 0) (fun _ => 0)
    (fun object =>
       match object with
       | K_AbstractType => 8 | K_Array => 16 | K_Class => 24 | K_Code => 32
       | K_Error => 40 | K_ExceptionHandlers => 48 | K_Field => 56
       | K_Function => 64 | K_GrowableObjectArray => 72 | K_Instance => 80
       | K_Library => 88 | K_Object => 96 | K_PcDescriptors => 104
       | K_String => 112 | K_TypeArguments => 120 | K_TypeParameter => 128
       end)
    (fun _ => false) (fun _ => Object_null).

Definition example_vm (id : ThreadId) (lock : Mutex) : VM :=
  mkVM (example_thread id lock) Detached
    (fun _ => mkIsolateData None [] []).

(** The same thread attached to isolate [isolate] as its mutator, with a
    fresh buffer block. *)
Definition example_attached_vm (id : ThreadId) (lock : Mutex)
    (isolate : ptr) : VM :=
  mkVM (with_store_buffer_block_ (Some [])
          (with_isolate_ isolate (example_thread id lock)))
    AttachedAsMutator
    (fun i => mkIsolateData (if i =? isolate then Some id else None) [] []).

(** * Properties *)

(** ** Tags, state clearing and release builds *)

(** C10. For every thread and every tag value, [set_vm_tag] stores the tag
    unconditionally, a following [vm_tag] returns it, and no member other
    than [vm_tag_] changes. *)
Theorem set_vm_tag_stores_tag :
  forall (t : Thread) (tag : uword),
    vm_tag (set_vm_tag tag t) = tag /\
    same_outside_vm_tag t (set_vm_tag tag t).
Proof.
  intros t tag. split.
  - reflexivity.
  - unfold same_outside_vm_tag, set_vm_tag, with_vm_tag_; simpl.
    repeat split.
Qed.

(** C8. [ClearState] sets every member of the thread's [State] record to
    zero or null and leaves every member outside that record unchanged. *)
Theorem ClearState_zeroes_state_only :
  forall t : Thread,
    State.zone (state_ (ClearState t)) = NULL /\
    State.top_exit_frame_info (state_ (ClearState t)) = 0 /\
    State.top_resource (state_ (ClearState t)) = NULL /\
    State.timeline_block (state_ (ClearState t)) = NULL /\
    State.long_jump_base (state_ (ClearState t)) = NULL /\
    State.top_handle_scope (state_ (ClearState t)) = NULL /\
    State.no_handle_scope_depth (state_ (ClearState t)) = 0 /\
    State.no_safepoint_scope_depth (state_ (ClearState t)) = 0 /\
    same_outside_state t (ClearState t).
Proof.
  intros t. unfold same_outside_state, ClearState, with_state_; simpl.
  repeat split.
Qed.

(** C7. In a release build the three debug getters return 0 and the four
    depth operations and [set_top_handle_scope] return the thread as it
    was. *)
Theorem release_build_debug_members_inert :
  DEBUG = false ->
  forall (t : Thread) (handle_scope : ptr),
    no_handle_scope_depth t = 0 /\
    no_safepoint_scope_depth t = 0 /\
    top_handle_scope t = 0 /\
    IncrementNoHandleScopeDepth t = Some t /\
    DecrementNoHandleScopeDepth t = Some t /\
    IncrementNoSafepointScopeDepth t = Some t /\
    DecrementNoSafepointScopeDepth t = Some t /\
    set_top_handle_scope handle_scope t = t.
Proof.
  intros Hrelease t handle_scope.
  unfold no_handle_scope_depth, no_safepoint_scope_depth, top_handle_scope,
    IncrementNoHandleScopeDepth, DecrementNoHandleScopeDepth,
    IncrementNoSafepointScopeDepth, DecrementNoSafepointScopeDepth,
    set_top_handle_scope.
  rewrite Hrelease. repeat split.
Qed.

(** ** Offset accessors *)

(** C3. Every static offset accessor returns the same value in any two
    program states of one run, and calling it changes nothing. *)
Theorem offset_methods_stable :
  forall (m : OffsetMethod) (vm vm' : VM),
    fst (call_offset_method m vm) = fst (call_offset_method m vm') /\
    snd (call_offset_method m vm) = vm.
Proof.
  intros m vm vm'. split; reflexivity.
Qed.

(** ** Reusable handles *)

Lemma ReusableHandleKind_listed :
  forall object : ReusableHandleKind, In object REUSABLE_HANDLE_LIST.
Proof.
  intros object. unfold REUSABLE_HANDLE_LIST.
  destruct object; simpl; tauto.
Qed.

Lemma IS_REUSABLE_HANDLE_SCOPE_ACTIVE_spec :
  forall (objects : list ReusableHandleKind) (t : Thread),
    IS_REUSABLE_HANDLE_SCOPE_ACTIVE objects t = true <->
    exists object, In object objects /\
                   reusable_handle_scope_active_ t object = true.
Proof.
  induction objects as [|o rest IH]; intros t; simpl.
  - split; [discriminate | intros [k [[] _]]].
  - destruct (reusable_handle_scope_active_ t o) eqn:Hflag.
    + split; [intros _; exists o; auto | reflexivity].
    + rewrite IH. split.
      * intros [k [Hin Hk]]. exists k; auto.
      * intros [k [[Heq | Hin] Hk]].
        -- subst k. congruence.
        -- exists k; auto.
Qed.

(** C5. [IsAnyReusableHandleScopeActive] returns true exactly when at least
    one of the per-kind scope-active flags is set. *)
Theorem IsAnyReusableHandleScopeActive_iff :
  forall t : Thread,
    IsAnyReusableHandleScopeActive t = true <->
    exists object, reusable_handle_scope_active object t = true.
Proof.
  intros t. unfold IsAnyReusableHandleScopeActive, reusable_handle_scope_active.
  rewrite IS_REUSABLE_HANDLE_SCOPE_ACTIVE_spec. split.
  - intros [k [_ Hk]]. exists k; exact Hk.
  - intros [k Hk]. exists k. split; [apply ReusableHandleKind_listed | exact Hk].
Qed.

Lemma CLEAR_REUSABLE_HANDLE_handle_ :
  forall (objects : list ReusableHandleKind) (t : Thread),
    handle_ (CLEAR_REUSABLE_HANDLE objects t) = handle_ t.
Proof.
  induction objects as [|o rest IH]; intros t; simpl.
  - reflexivity.
  - rewrite IH. reflexivity.
Qed.

Lemma CLEAR_REUSABLE_HANDLE_storage :
  forall (objects : list ReusableHandleKind) (t : Thread) (p : ptr),
    reusable_handles_ (CLEAR_REUSABLE_HANDLE objects t) p =
    if existsb (fun object => p =? handle_ t object) objects
    then Object_null else reusable_handles_ t p.
Proof.
  induction objects as [|o rest IH]; intros t p; simpl.
  - reflexivity.
  - rewrite IH. simpl. unfold upd.
    destruct (p =? handle_ t o); simpl.
    + destruct (existsb _ rest); reflexivity.
    + reflexivity.
Qed.

(** C4. After [ClearReusableHandles] every pooled reusable handle, one per
    kind of the reusable-handle list, holds the null reference. *)
Theorem ClearReusableHandles_all_null :
  forall (t : Thread) (object : ReusableHandleKind),
    Handle object (ClearReusableHandles t) = Object_null.
Proof.
  intros t object. unfold Handle, ClearReusableHandles.
  rewrite CLEAR_REUSABLE_HANDLE_handle_, CLEAR_REUSABLE_HANDLE_storage.
  assert (Hex : existsb (fun o => handle_ t object =? handle_ t o)
                  REUSABLE_HANDLE_LIST = true).
  { apply existsb_exists. exists object.
    split; [apply ReusableHandleKind_listed | apply Z.eqb_refl]. }
  rewrite Hex. reflexivity.
Qed.

(** ** Nesting counters *)

Lemma wrap_signed_small :
  forall bits z : Z,
    32 <= bits -> - 2 ^ 31 <= z < 2 ^ 31 -> wrap_signed bits z = z.
Proof.
  intros bits z Hbits Hz. unfold wrap_signed.
  assert (Hle : 2 ^ 31 <= 2 ^ (bits - 1)) by (apply Z.pow_le_mono_r; lia).
  assert (Hdouble : 2 ^ bits = 2 * 2 ^ (bits - 1)).
  { replace bits with (Z.succ (bits - 1)) at 1 by lia.
    apply Z.pow_succ_r. lia. }
  rewrite Z.mod_small; lia.
Qed.

Lemma calls_of_cons :
  forall (c c' : DepthCall) (calls : list DepthCall),
    calls_of c (c' :: calls) =
    (if DepthCall_eqb c c' then 1 else 0) + calls_of c calls.
Proof.
  intros c c' calls. unfold calls_of. simpl.
  destruct (DepthCall_eqb c c'); simpl length; lia.
Qed.

(** Effect of one successful depth operation on the two members. *)
Lemma depth_call_step :
  DEBUG = true -> 32 <= kBitsPerWord ->
  forall (c : DepthCall) (vm vm' : VM),
    depths_in_range (thread vm) ->
    step (op_of_depth_call c) vm = Some vm' ->
    depths_in_range (thread vm') /\
    State.no_handle_scope_depth (state_ (thread vm')) =
      State.no_handle_scope_depth (state_ (thread vm))
      + (if DepthCall_eqb Call_IncrementNoHandleScopeDepth c then 1 else 0)
      - (if DepthCall_eqb Call_DecrementNoHandleScopeDepth c then 1 else 0) /\
    State.no_safepoint_scope_depth (state_ (thread vm')) =
      State.no_safepoint_scope_depth (state_ (thread vm))
      + (if DepthCall_eqb Call_IncrementNoSafepointScopeDepth c then 1 else 0)
      - (if DepthCall_eqb Call_DecrementNoSafepointScopeDepth c then 1 else 0).
Proof.
  intros Hdebug Hbits c vm vm' [Hh Hs] Hstep.
  unfold INT_MAX in Hh, Hs.
  destruct c; simpl in Hstep; unfold on_thread_checked in Hstep;
    unfold IncrementNoHandleScopeDepth, DecrementNoHandleScopeDepth,
      IncrementNoSafepointScopeDepth, DecrementNoSafepointScopeDepth,
      ASSERT in Hstep;
    rewrite Hdebug in Hstep; unfold INT_MAX in Hstep.
  - destruct (State.no_handle_scope_depth (state_ (thread vm)) <? 2147483647)
      eqn:Hlt; simpl in Hstep; [|discriminate].
    apply Z.ltb_lt in Hlt. injection Hstep as <-.
    unfold depths_in_range, INT_MAX; simpl.
    rewrite wrap_signed_small by (try assumption; lia). lia.
  - destruct (State.no_handle_scope_depth (state_ (thread vm)) >? 0)
      eqn:Hgt; simpl in Hstep; [|discriminate].
    apply Z.gtb_lt in Hgt. injection Hstep as <-.
    unfold depths_in_range, INT_MAX; simpl.
    rewrite wrap_signed_small by (try assumption; lia). lia.
  - destruct (State.no_safepoint_scope_depth (state_ (thread vm)) <? 2147483647)
      eqn:Hlt; simpl in Hstep; [|discriminate].
    apply Z.ltb_lt in Hlt. injection Hstep as <-.
    unfold depths_in_range, INT_MAX, wrap_int32; simpl.
    rewrite wrap_signed_small by lia. lia.
  - destruct (State.no_safepoint_scope_depth (state_ (thread vm)) >? 0)
      eqn:Hgt; simpl in Hstep; [|discriminate].
    apply Z.gtb_lt in Hgt. injection Hstep as <-.
    unfold depths_in_range, INT_MAX, wrap_int32; simpl.
    rewrite wrap_signed_small by lia. lia.
Qed.

Lemma depth_calls_run :
  DEBUG = true -> 32 <= kBitsPerWord ->
  forall (calls : list DepthCall) (vm vm' : VM),
    depths_in_range (thread vm) ->
    run (map op_of_depth_call calls) vm = Some vm' ->
    depths_in_range (thread vm') /\
    State.no_handle_scope_depth (state_ (thread vm')) =
      State.no_handle_scope_depth (state_ (thread vm))
      + calls_of Call_IncrementNoHandleScopeDepth calls
      - calls_of Call_DecrementNoHandleScopeDepth calls /\
    State.no_safepoint_scope_depth (state_ (thread vm')) =
      State.no_safepoint_scope_depth (state_ (thread vm))
      + calls_of Call_IncrementNoSafepointScopeDepth calls
      - calls_of Call_DecrementNoSafepointScopeDepth calls.
Proof.
  intros Hdebug Hbits.
  induction calls as [|c rest IH]; intros vm vm' Hrange Hrun.
  - simpl in Hrun. injection Hrun as <-.
    unfold calls_of; simpl. repeat split; try apply Hrange; lia.
  - simpl in Hrun.
    destruct (step (op_of_depth_call c) vm) as [vm1|] eqn:Hstep;
      simpl in Hrun; [|discriminate].
    destruct (depth_call_step Hdebug Hbits c vm vm1 Hrange Hstep)
      as [Hrange1 [Hh1 Hs1]].
    destruct (IH vm1 vm' Hrange1 Hrun) as [Hrange' [Hh' Hs']].
    rewrite !calls_of_cons. repeat split; try apply Hrange'; lia.
Qed.

Lemma debug_depth_getters :
  DEBUG = true ->
  forall t : Thread,
    depths_in_range t ->
    no_handle_scope_depth t = State.no_handle_scope_depth (state_ t) /\
    no_safepoint_scope_depth t = State.no_safepoint_scope_depth (state_ t).
Proof.
  intros Hdebug t [Hh Hs]. unfold INT_MAX in Hh.
  unfold no_handle_scope_depth, no_safepoint_scope_depth, wrap_int32.
  rewrite Hdebug. split; [|reflexivity].
  apply wrap_signed_small; lia.
Qed.

(** ** What the operations leave alone *)

Lemma on_thread_Some :
  forall (f : Thread -> Thread) (vm vm' : VM),
    on_thread f vm = Some vm' -> thread vm' = f (thread vm).
Proof.
  intros f vm vm' H. unfold on_thread in H. injection H as <-. reflexivity.
Qed.

Lemma on_thread_checked_Some :
  forall (f : Thread -> option Thread) (vm vm' : VM),
    on_thread_checked f vm = Some vm' -> f (thread vm) = Some (thread vm').
Proof.
  intros f vm vm' H. unfold on_thread_checked in H.
  destruct (f (thread vm)) as [t'|]; simpl in H; [|discriminate].
  injection H as <-. reflexivity.
Qed.

Lemma CLEAR_REUSABLE_HANDLE_frame :
  forall (objects : list ReusableHandleKind) (t : Thread),
    id_ (CLEAR_REUSABLE_HANDLE objects t) = id_ t /\
    state_ (CLEAR_REUSABLE_HANDLE objects t) = state_ t.
Proof.
  induction objects as [|o rest IH]; intros t; simpl.
  - split; reflexivity.
  - destruct (IH (with_reusable_handles_
                    (upd Z.eqb (reusable_handles_ t) (handle_ t o)
                       Object_null) t)) as [Hid Hstate].
    rewrite Hid, Hstate. split; reflexivity.
Qed.

Lemma StoreBufferRelease_frame :
  forall (policy : ThresholdPolicy) (vm vm' : VM),
    StoreBufferRelease policy vm = Some vm' ->
    id_ (thread vm') = id_ (thread vm) /\
    state_ (thread vm') = state_ (thread vm).
Proof.
  intros policy vm vm' H. unfold StoreBufferRelease in H.
  destruct (store_buffer_block_ (thread vm)); [|discriminate].
  injection H as <-. split; reflexivity.
Qed.

Lemma StoreBufferBlockProcess_frame :
  forall (policy : ThresholdPolicy) (vm vm' : VM),
    StoreBufferBlockProcess policy vm = Some vm' ->
    id_ (thread vm') = id_ (thread vm) /\
    state_ (thread vm') = state_ (thread vm).
Proof.
  intros policy vm vm' H. unfold StoreBufferBlockProcess in H.
  destruct (store_buffer_block_ (thread vm)) as [block|] eqn:Hb;
    [|discriminate].
  destruct (flush_due policy block).
  - destruct (StoreBufferRelease policy vm) as [vm1|] eqn:Hrel;
      simpl in H; [|discriminate].
    injection H as <-. simpl.
    exact (StoreBufferRelease_frame _ _ _ Hrel).
  - injection H as <-. split; reflexivity.
Qed.

Lemma StoreBufferAddObject_frame :
  forall (obj : RawObject) (vm vm' : VM),
    StoreBufferAddObject obj vm = Some vm' ->
    id_ (thread vm') = id_ (thread vm) /\
    state_ (thread vm') = state_ (thread vm).
Proof.
  intros obj vm vm' H. unfold StoreBufferAddObject in H.
  destruct (store_buffer_block_ (thread vm)); [|discriminate].
  apply StoreBufferBlockProcess_frame in H. exact H.
Qed.

Lemma StoreBufferAddObjectGC_frame :
  forall (obj : RawObject) (vm vm' : VM),
    StoreBufferAddObjectGC obj vm = Some vm' ->
    id_ (thread vm') = id_ (thread vm) /\
    state_ (thread vm') = state_ (thread vm).
Proof.
  intros obj vm vm' H. unfold StoreBufferAddObjectGC in H.
  destruct (store_buffer_block_ (thread vm)); [|discriminate].
  injection H as <-. split; reflexivity.
Qed.

(** Entering and leaving an isolate keep the thread id and install the
    cleared state. *)
Lemma attach_operations_frame :
  forall (vm vm' : VM),
    (forall isolate, EnterIsolate isolate vm = Some vm' ->
       id_ (thread vm') = id_ (thread vm) /\
       state_ (thread vm') = State.zero) /\
    (ExitIsolate vm = Some vm' ->
       id_ (thread vm') = id_ (thread vm) /\
       state_ (thread vm') = State.zero) /\
    (forall isolate bypass,
       EnterIsolateAsHelper isolate bypass vm = Some vm' ->
       id_ (thread vm') = id_ (thread vm) /\
       state_ (thread vm') = State.zero) /\
    (forall bypass, ExitIsolateAsHelper bypass vm = Some vm' ->
       id_ (thread vm') = id_ (thread vm) /\
       state_ (thread vm') = State.zero).
Proof.
  intros vm vm'. repeat apply conj.
  - intros isolate H. unfold EnterIsolate in H.
    destruct (attach vm); try discriminate.
    injection H as <-. split; reflexivity.
  - intros H. unfold ExitIsolate in H.
    destruct (attach vm); try discriminate.
    destruct (StoreBufferRelease kCheckThreshold vm) as [vm1|] eqn:Hrel;
      simpl in H; [|discriminate].
    injection H as <-. simpl.
    split; [apply (StoreBufferRelease_frame _ _ _ Hrel) | reflexivity].
  - intros isolate bypass H. unfold EnterIsolateAsHelper in H.
    destruct (attach vm); try discriminate.
    injection H as <-. split; reflexivity.
  - intros bypass H. unfold ExitIsolateAsHelper in H.
    destruct (attach vm); try discriminate.
    destruct (StoreBufferRelease kCheckThreshold vm) as [vm1|] eqn:Hrel;
      simpl in H; [|discriminate].
    injection H as <-. simpl.
    split; [apply (StoreBufferRelease_frame _ _ _ Hrel) | reflexivity].
Qed.

Lemma depth_operations_id_ :
  forall t t' : Thread,
    (IncrementNoHandleScopeDepth t = Some t' -> id_ t' = id_ t) /\
    (DecrementNoHandleScopeDepth t = Some t' -> id_ t' = id_ t) /\
    (IncrementNoSafepointScopeDepth t = Some t' -> id_ t' = id_ t) /\
    (DecrementNoSafepointScopeDepth t = Some t' -> id_ t' = id_ t).
Proof.
  intros t t'.
  unfold IncrementNoHandleScopeDepth, DecrementNoHandleScopeDepth,
    IncrementNoSafepointScopeDepth, DecrementNoSafepointScopeDepth.
  repeat split; intros H;
    (destruct DEBUG;
     [ match type of H with
       | bind (ASSERT ?c) _ = _ =>
           destruct (ASSERT c); simpl in H; [|discriminate]
       end
     | ]; injection H as <-; reflexivity).
Qed.

Lemma step_id_ :
  forall (op : Op) (vm vm' : VM),
    step op vm = Some vm' -> id_ (thread vm') = id_ (thread vm).
Proof.
  intros op vm vm' H.
  destruct (attach_operations_frame vm vm') as [He [Hx [Heh Hxh]]].
  destruct (depth_operations_id_ (thread vm) (thread vm'))
    as [D1 [D2 [D3 D4]]].
  destruct op; unfold step in H;
    try (apply on_thread_Some in H; rewrite H);
    try (apply on_thread_checked_Some in H;
         first [ exact (D1 H) | exact (D2 H) | exact (D3 H) | exact (D4 H) ]);
    try apply CLEAR_REUSABLE_HANDLE_frame;
    try reflexivity.
  - unfold set_top_handle_scope. destruct DEBUG; reflexivity.
  - apply (He _ H).
  - apply (Hx H).
  - apply (Heh _ _ H).
  - apply (Hxh _ H).
  - apply (StoreBufferBlockProcess_frame _ _ _ H).
  - apply (StoreBufferAddObject_frame _ _ _ H).
  - apply (StoreBufferAddObjectGC_frame _ _ _ H).
  - apply (StoreBufferBlockProcess_frame _ _ _ H).
Qed.

(** In a debug build every operation keeps the counters in range. *)
Lemma step_depths_in_range :
  DEBUG = true -> 32 <= kBitsPerWord ->
  forall (op : Op) (vm vm' : VM),
    depths_in_range (thread vm) ->
    step op vm = Some vm' ->
    depths_in_range (thread vm').
Proof.
  intros Hdebug Hbits op vm vm' Hrange H.
  destruct (attach_operations_frame vm vm') as [He [Hx [Heh Hxh]]].
  assert (Hzero : state_ (thread vm') = State.zero ->
                  depths_in_range (thread vm')).
  { intros Hz. unfold depths_in_range. rewrite Hz. unfold INT_MAX. simpl.
    lia. }
  assert (Hsame : state_ (thread vm') = state_ (thread vm) ->
                  depths_in_range (thread vm')).
  { intros Hs. unfold depths_in_range. rewrite Hs. exact Hrange. }
  destruct op;
    try (apply (depth_call_step Hdebug Hbits
                  Call_IncrementNoHandleScopeDepth vm vm' Hrange H));
    try (apply (depth_call_step Hdebug Hbits
                  Call_DecrementNoHandleScopeDepth vm vm' Hrange H));
    try (apply (depth_call_step Hdebug Hbits
                  Call_IncrementNoSafepointScopeDepth vm vm' Hrange H));
    try (apply (depth_call_step Hdebug Hbits
                  Call_DecrementNoSafepointScopeDepth vm vm' Hrange H));
    unfold step in H;
    try (apply on_thread_Some in H; unfold depths_in_range; rewrite H);
    try (unfold ClearReusableHandles;
         rewrite (proj2 (CLEAR_REUSABLE_HANDLE_frame _ _)));
    try exact Hrange.
  - unfold set_top_handle_scope. destruct DEBUG; exact Hrange.
  - unfold INT_MAX. simpl. lia.
  - apply Hzero, (He _ H).
  - apply Hzero, (Hx H).
  - apply Hzero, (Heh _ _ H).
  - apply Hzero, (Hxh _ H).
  - apply Hsame, (StoreBufferBlockProcess_frame _ _ _ H).
  - apply Hsame, (StoreBufferAddObject_frame _ _ _ H).
  - apply Hsame, (StoreBufferAddObjectGC_frame _ _ _ H).
  - apply Hsame, (StoreBufferBlockProcess_frame _ _ _ H).
Qed.

Lemma run_depths_in_range :
  DEBUG = true -> 32 <= kBitsPerWord ->
  forall (ops : list Op) (vm vm' : VM),
    depths_in_range (thread vm) ->
    run ops vm = Some vm' ->
    depths_in_range (thread vm').
Proof.
  intros Hdebug Hbits.
  induction ops as [|op rest IH]; intros vm vm' Hrange H; simpl in H.
  - injection H as <-. exact Hrange.
  - destruct (step op vm) as [vm1|] eqn:Hstep; simpl in H; [|discriminate].
    apply (IH vm1 vm'); [|exact H].
    exact (step_depths_in_range Hdebug Hbits op vm vm1 Hrange Hstep).
Qed.

(** C6. In a debug build, on a thread whose two nesting counters lie in
    [[0, INT_MAX]]: a decrement at depth 0 and an increment at depth
    [INT_MAX] fail the assertion; every other call succeeds and changes its
    counter by exactly one, leaving the other counter alone; after any run
    of such calls both counters are again in [[0, INT_MAX]] and differ from
    their initial values by the number of increments minus the number of
    decrements; and after any run of operations of the class both counters
    are in [[0, INT_MAX]]. *)
Theorem nesting_depth_counters_checked :
  DEBUG = true -> 32 <= kBitsPerWord ->
  forall vm : VM,
    depths_in_range (thread vm) ->
    (no_handle_scope_depth (thread vm) = 0 ->
     step Op_DecrementNoHandleScopeDepth vm = None) /\
    (no_handle_scope_depth (thread vm) = INT_MAX ->
     step Op_IncrementNoHandleScopeDepth vm = None) /\
    (no_safepoint_scope_depth (thread vm) = 0 ->
     step Op_DecrementNoSafepointScopeDepth vm = None) /\
    (no_safepoint_scope_depth (thread vm) = INT_MAX ->
     step Op_IncrementNoSafepointScopeDepth vm = None) /\
    (0 < no_handle_scope_depth (thread vm) ->
     exists vm', step Op_DecrementNoHandleScopeDepth vm = Some vm' /\
       no_handle_scope_depth (thread vm') =
         no_handle_scope_depth (thread vm) - 1 /\
       no_safepoint_scope_depth (thread vm') =
         no_safepoint_scope_depth (thread vm)) /\
    (no_handle_scope_depth (thread vm) < INT_MAX ->
     exists vm', step Op_IncrementNoHandleScopeDepth vm = Some vm' /\
       no_handle_scope_depth (thread vm') =
         no_handle_scope_depth (thread vm) + 1 /\
       no_safepoint_scope_depth (thread vm') =
         no_safepoint_scope_depth (thread vm)) /\
    (0 < no_safepoint_scope_depth (thread vm) ->
     exists vm', step Op_DecrementNoSafepointScopeDepth vm = Some vm' /\
       no_safepoint_scope_depth (thread vm') =
         no_safepoint_scope_depth (thread vm) - 1 /\
       no_handle_scope_depth (thread vm') =
         no_handle_scope_depth (thread vm)) /\
    (no_safepoint_scope_depth (thread vm) < INT_MAX ->
     exists vm', step Op_IncrementNoSafepointScopeDepth vm = Some vm' /\
       no_safepoint_scope_depth (thread vm') =
         no_safepoint_scope_depth (thread vm) + 1 /\
       no_handle_scope_depth (thread vm') =
         no_handle_scope_depth (thread vm)) /\
    (forall (calls : list DepthCall) (vm' : VM),
       run (map op_of_depth_call calls) vm = Some vm' ->
       0 <= no_handle_scope_depth (thread vm') <= INT_MAX /\
       0 <= no_safepoint_scope_depth (thread vm') <= INT_MAX /\
       no_handle_scope_depth (thread vm') =
         no_handle_scope_depth (thread vm)
         + calls_of Call_IncrementNoHandleScopeDepth calls
         - calls_of Call_DecrementNoHandleScopeDepth calls /\
       no_safepoint_scope_depth (thread vm') =
         no_safepoint_scope_depth (thread vm)
         + calls_of Call_IncrementNoSafepointScopeDepth calls
         - calls_of Call_DecrementNoSafepointScopeDepth calls) /\
    (forall (ops : list Op) (vm' : VM),
       run ops vm = Some vm' ->
       0 <= no_handle_scope_depth (thread vm') <= INT_MAX /\
       0 <= no_safepoint_scope_depth (thread vm') <= INT_MAX).
Proof.
  intros Hdebug Hbits vm Hrange.
  destruct (debug_depth_getters Hdebug (thread vm) Hrange) as [Gh Gs].
  rewrite Gh, Gs.
  assert (Hfail : forall c,
            (match c with
             | Call_IncrementNoHandleScopeDepth =>
                 State.no_handle_scope_depth (state_ (thread vm)) = INT_MAX
             | Call_DecrementNoHandleScopeDepth =>
                 State.no_handle_scope_depth (state_ (thread vm)) = 0
             | Call_IncrementNoSafepointScopeDepth =>
                 State.no_safepoint_scope_depth (state_ (thread vm)) = INT_MAX
             | Call_DecrementNoSafepointScopeDepth =>
                 State.no_safepoint_scope_depth (state_ (thread vm)) = 0
             end) -> step (op_of_depth_call c) vm = None).
  { intros c Hc.
    destruct c; simpl; unfold on_thread_checked,
      IncrementNoHandleScopeDepth, DecrementNoHandleScopeDepth,
      IncrementNoSafepointScopeDepth, DecrementNoSafepointScopeDepth, ASSERT;
      rewrite Hdebug, Hc; reflexivity. }
  assert (Hok : forall c,
            (match c with
             | Call_IncrementNoHandleScopeDepth =>
                 State.no_handle_scope_depth (state_ (thread vm)) < INT_MAX
             | Call_DecrementNoHandleScopeDepth =>
                 0 < State.no_handle_scope_depth (state_ (thread vm))
             | Call_IncrementNoSafepointScopeDepth =>
                 State.no_safepoint_scope_depth (state_ (thread vm)) < INT_MAX
             | Call_DecrementNoSafepointScopeDepth =>
                 0 < State.no_safepoint_scope_depth (state_ (thread vm))
             end) -> exists vm', step (op_of_depth_call c) vm = Some vm').
  { intros c Hc.
    destruct c; simpl; unfold on_thread_checked,
      IncrementNoHandleScopeDepth, DecrementNoHandleScopeDepth,
      IncrementNoSafepointScopeDepth, DecrementNoSafepointScopeDepth, ASSERT;
      rewrite Hdebug.
    - apply Z.ltb_lt in Hc. rewrite Hc. simpl. eexists; reflexivity.
    - apply Z.gtb_lt in Hc. rewrite Hc. simpl. eexists; reflexivity.
    - apply Z.ltb_lt in Hc. rewrite Hc. simpl. eexists; reflexivity.
    - apply Z.gtb_lt in Hc. rewrite Hc. simpl. eexists; reflexivity. }
  assert (Hone : forall c vm',
            step (op_of_depth_call c) vm = Some vm' ->
            no_handle_scope_depth (thread vm') =
              State.no_handle_scope_depth (state_ (thread vm))
              + (if DepthCall_eqb Call_IncrementNoHandleScopeDepth c
                 then 1 else 0)
              - (if DepthCall_eqb Call_DecrementNoHandleScopeDepth c
                 then 1 else 0) /\
            no_safepoint_scope_depth (thread vm') =
              State.no_safepoint_scope_depth (state_ (thread vm))
              + (if DepthCall_eqb Call_IncrementNoSafepointScopeDepth c
                 then 1 else 0)
              - (if DepthCall_eqb Call_DecrementNoSafepointScopeDepth c
                 then 1 else 0)).
  { intros c vm' Hstep.
    destruct (depth_call_step Hdebug Hbits c vm vm' Hrange Hstep)
      as [Hrange' [Hh Hs]].
    destruct (debug_depth_getters Hdebug (thread vm') Hrange') as [Gh' Gs'].
    rewrite Gh', Gs'. split; assumption. }
  repeat apply conj.
  - exact (Hfail Call_DecrementNoHandleScopeDepth).
  - exact (Hfail Call_IncrementNoHandleScopeDepth).
  - exact (Hfail Call_DecrementNoSafepointScopeDepth).
  - exact (Hfail Call_IncrementNoSafepointScopeDepth).
  - intros Hc.
    destruct (Hok Call_DecrementNoHandleScopeDepth Hc) as [vm' Hstep].
    exists vm'. split; [exact Hstep|].
    destruct (Hone _ _ Hstep) as [Hh Hs]. simpl in Hh, Hs. split; lia.
  - intros Hc.
    destruct (Hok Call_IncrementNoHandleScopeDepth Hc) as [vm' Hstep].
    exists vm'. split; [exact Hstep|].
    destruct (Hone _ _ Hstep) as [Hh Hs]. simpl in Hh, Hs. split; lia.
  - intros Hc.
    destruct (Hok Call_DecrementNoSafepointScopeDepth Hc) as [vm' Hstep].
    exists vm'. split; [exact Hstep|].
    destruct (Hone _ _ Hstep) as [Hh Hs]. simpl in Hh, Hs. split; lia.
  - intros Hc.
    destruct (Hok Call_IncrementNoSafepointScopeDepth Hc) as [vm' Hstep].
    exists vm'. split; [exact Hstep|].
    destruct (Hone _ _ Hstep) as [Hh Hs]. simpl in Hh, Hs. split; lia.
  - intros calls vm' Hrun.
    destruct (depth_calls_run Hdebug Hbits calls vm vm' Hrange Hrun)
      as [Hrange' [Hh Hs]].
    destruct (debug_depth_getters Hdebug (thread vm') Hrange') as [Gh' Gs'].
    rewrite Gh', Gs'. destruct Hrange' as [R1 R2].
    repeat split; try apply R1; try apply R2; assumption.
  - intros ops vm' Hrun.
    pose proof (run_depths_in_range Hdebug Hbits ops vm vm' Hrange Hrun)
      as Hrange'.
    destruct (debug_depth_getters Hdebug (thread vm') Hrange') as [Gh' Gs'].
    rewrite Gh', Gs'. exact Hrange'.
Qed.

(** ** Thread identity *)

Lemma run_id_ :
  forall (ops : list Op) (vm vm' : VM),
    run ops vm = Some vm' -> id_ (thread vm') = id_ (thread vm).
Proof.
  induction ops as [|op rest IH]; intros vm vm' H; simpl in H.
  - injection H as <-. reflexivity.
  - destruct (step op vm) as [vm1|] eqn:Hstep; simpl in H; [|discriminate].
    rewrite (IH _ _ H). exact (step_id_ _ _ _ Hstep).
Qed.

(** C9. No operation modifies [id_]: after every sequence of operations
    [id_] is the thread id the thread started with, and [id()] returns it
    whenever it is not the invalid thread id; on the invalid id the
    assertion of [id()] fails in a checked build. *)
Theorem thread_id_immutable :
  forall (ops : list Op) (vm vm' : VM),
    run ops vm = Some vm' ->
    id_ (thread vm') = id_ (thread vm) /\
    (id_ (thread vm) <> kInvalidThreadId ->
     id (thread vm') = Some (id_ (thread vm))) /\
    (DEBUG = true -> id_ (thread vm) = kInvalidThreadId ->
     id (thread vm') = None).
Proof.
  intros ops vm vm' Hrun.
  pose proof (run_id_ _ _ _ Hrun) as Hid.
  split; [exact Hid|]. unfold id, ASSERT. rewrite Hid. split.
  - intros Hvalid. apply Z.eqb_neq in Hvalid. rewrite Hvalid.
    destruct DEBUG; reflexivity.
  - intros Hdebug Hinvalid. rewrite Hdebug, Hinvalid, Z.eqb_refl.
    reflexivity.
Qed.

(** ** Attaching to and detaching from an isolate *)

Lemma run_app :
  forall (ops1 ops2 : list Op) (vm : VM),
    run (ops1 ++ ops2) vm = (vm1 <- run ops1 vm ;; run ops2 vm1).
Proof.
  induction ops1 as [|op rest IH]; intros ops2 vm; simpl.
  - reflexivity.
  - destruct (step op vm) as [vm1|]; simpl; [apply IH | reflexivity].
Qed.

Lemma EnterIsolate_Some :
  forall (isolate : ptr) (vm vm' : VM),
    EnterIsolate isolate vm = Some vm' ->
    attach vm = Detached /\ attach vm' = AttachedAsMutator /\
    store_buffer_block_ (thread vm') = Some [].
Proof.
  intros isolate vm vm' H. unfold EnterIsolate in H.
  destruct (attach vm); try discriminate.
  injection H as <-. repeat split.
Qed.

Lemma EnterIsolate_Detached :
  forall (isolate : ptr) (vm : VM),
    attach vm = Detached -> exists vm', EnterIsolate isolate vm = Some vm'.
Proof.
  intros isolate vm H. unfold EnterIsolate. rewrite H. eexists; reflexivity.
Qed.

Lemma ExitIsolate_Some :
  forall vm vm' : VM,
    ExitIsolate vm = Some vm' ->
    attach vm = AttachedAsMutator /\ attach vm' = Detached.
Proof.
  intros vm vm' H. unfold ExitIsolate in H.
  destruct (attach vm); try discriminate.
  destruct (StoreBufferRelease kCheckThreshold vm); simpl in H;
    [|discriminate].
  injection H as <-. split; reflexivity.
Qed.

Lemma ExitIsolate_AttachedAsMutator :
  forall (vm : VM) (block : list RawObject),
    attach vm = AttachedAsMutator ->
    store_buffer_block_ (thread vm) = Some block ->
    exists vm', ExitIsolate vm = Some vm'.
Proof.
  intros vm block Ha Hb. unfold ExitIsolate, StoreBufferRelease.
  rewrite Ha, Hb. simpl. eexists; reflexivity.
Qed.

Lemma isolate_calls_succeed_iff :
  forall (calls : list IsolateCall) (vm : VM),
    attach_invariant vm ->
    (run (map op_of_call calls) vm <> None <->
     alternates (expects_EnterIsolate vm) calls = true).
Proof.
  induction calls as [|c rest IH]; intros vm Hinv; simpl.
  - split; [reflexivity | discriminate].
  - destruct c as [isolate|]; simpl.
    + destruct Hinv as [Hd | [Hm _]].
      * destruct (EnterIsolate_Detached isolate vm Hd) as [vm1 H1].
        rewrite H1. simpl.
        destruct (EnterIsolate_Some _ _ _ H1) as [_ [Ha Hb]].
        unfold expects_EnterIsolate at 1. rewrite Hd. simpl.
        rewrite IH.
        -- unfold expects_EnterIsolate. rewrite Ha. reflexivity.
        -- right. split; [exact Ha | eexists; exact Hb].
      * unfold EnterIsolate, expects_EnterIsolate. rewrite Hm. simpl.
        split; [congruence | discriminate].
    + destruct Hinv as [Hd | [Hm [block Hb]]].
      * unfold ExitIsolate, expects_EnterIsolate. rewrite Hd. simpl.
        split; [congruence | discriminate].
      * destruct (ExitIsolate_AttachedAsMutator vm block Hm Hb) as [vm1 H1].
        rewrite H1. simpl.
        destruct (ExitIsolate_Some _ _ H1) as [_ Ha].
        unfold expects_EnterIsolate at 1. rewrite Hm. simpl.
        rewrite IH.
        -- unfold expects_EnterIsolate. rewrite Ha. reflexivity.
        -- left. exact Ha.
Qed.

Lemma isolate_calls_final_state :
  forall (calls : list IsolateCall) (vm0 vm : VM),
    attach vm0 = Detached ->
    run (map op_of_call calls) vm0 = Some vm ->
    attach vm =
      if ends_with_EnterIsolate calls then AttachedAsMutator else Detached.
Proof.
  intros calls vm0 vm Hd Hrun.
  destruct calls as [|c rest] using rev_ind.
  - simpl in Hrun. injection Hrun as <-. exact Hd.
  - clear IHrest. unfold ends_with_EnterIsolate. rewrite rev_app_distr. simpl.
    rewrite map_app, run_app in Hrun.
    destruct (run (map op_of_call rest) vm0) as [vm1|]; simpl in Hrun;
      [|discriminate].
    destruct c as [isolate|]; simpl in Hrun.
    + destruct (EnterIsolate isolate vm1) as [vm2|] eqn:H2; simpl in Hrun;
        [|discriminate].
      injection Hrun as <-. apply (EnterIsolate_Some _ _ _ H2).
    + destruct (ExitIsolate vm1) as [vm2|] eqn:H2; simpl in Hrun;
        [|discriminate].
      injection Hrun as <-. apply (ExitIsolate_Some _ _ H2).
Qed.

(** C1. Entering while attached and exiting while detached fail the
    contract check.  A run of [EnterIsolate]/[ExitIsolate] calls on a
    detached context succeeds exactly when the calls alternate, starting
    with an [EnterIsolate]; after it the context is [AttachedAsMutator]
    when the last call is an [EnterIsolate], whose [ExitIsolate] is still
    to come, and [Detached] otherwise. *)
Theorem isolate_attach_protocol :
  (forall (isolate : ptr) (vm : VM),
     attach vm <> Detached -> EnterIsolate isolate vm = None) /\
  (forall vm : VM, attach vm = Detached -> ExitIsolate vm = None) /\
  (forall (vm0 : VM) (calls : list IsolateCall),
     attach vm0 = Detached ->
     (run (map op_of_call calls) vm0 <> None <->
      alternates true calls = true) /\
     (forall vm : VM,
        run (map op_of_call calls) vm0 = Some vm ->
        attach vm =
          if ends_with_EnterIsolate calls then AttachedAsMutator
          else Detached)).
Proof.
  repeat apply conj.
  - intros isolate vm H. unfold EnterIsolate.
    destruct (attach vm); [congruence | reflexivity | reflexivity].
  - intros vm H. unfold ExitIsolate. rewrite H. reflexivity.
  - intros vm0 calls Hd. split.
    + rewrite (isolate_calls_succeed_iff calls vm0) by (left; exact Hd).
      unfold expects_EnterIsolate. rewrite Hd. reflexivity.
    + intros vm Hrun. exact (isolate_calls_final_state calls vm0 vm Hd Hrun).
Qed.

(** ** Store buffer *)

Lemma StoreBufferBlockProcess_effect :
  forall (policy : ThresholdPolicy) (vm : VM) (block : list RawObject),
    store_buffer_block_ (thread vm) = Some block ->
    exists vm' block',
      StoreBufferBlockProcess policy vm = Some vm' /\
      store_buffer_block_ (thread vm') = Some block' /\
      isolate_ (thread vm') = isolate_ (thread vm) /\
      global_records vm' ++ block' = global_records vm ++ block /\
      (flush_due policy block = true -> block' = []).
Proof.
  intros policy vm block Hb.
  unfold StoreBufferBlockProcess, StoreBufferRelease. rewrite Hb.
  destruct (flush_due policy block) eqn:Hdue; simpl.
  - eexists. exists []. split; [reflexivity|].
    unfold global_records, current_isolate; simpl. unfold upd.
    rewrite Z.eqb_refl. simpl. rewrite app_nil_r. repeat split.
  - exists vm, block. repeat split; try assumption. discriminate.
Qed.

Lemma StoreBufferAddObject_effect :
  forall (obj : RawObject) (vm : VM) (block : list RawObject),
    store_buffer_block_ (thread vm) = Some block ->
    exists vm' block',
      StoreBufferAddObject obj vm = Some vm' /\
      store_buffer_block_ (thread vm') = Some block' /\
      isolate_ (thread vm') = isolate_ (thread vm) /\
      global_records vm' ++ block' = global_records vm ++ block ++ [obj].
Proof.
  intros obj vm block Hb. unfold StoreBufferAddObject. rewrite Hb.
  destruct (StoreBufferBlockProcess_effect kCheckThreshold
              (with_thread
                 (with_store_buffer_block_ (Some (block ++ [obj]))
                    (thread vm)) vm)
              (block ++ [obj]) eq_refl)
    as [vm' [block' [Hp [Hb' [Hi [Hrec _]]]]]].
  exists vm', block'. repeat split; assumption.
Qed.

Lemma StoreBufferAddObject_run :
  forall (adds : list RawObject) (vm : VM) (block : list RawObject),
    store_buffer_block_ (thread vm) = Some block ->
    exists vm' block',
      run (map Op_StoreBufferAddObject adds) vm = Some vm' /\
      store_buffer_block_ (thread vm') = Some block' /\
      isolate_ (thread vm') = isolate_ (thread vm) /\
      global_records vm' ++ block' = global_records vm ++ block ++ adds.
Proof.
  induction adds as [|obj rest IH]; intros vm block Hb; simpl.
  - exists vm, block. rewrite app_nil_r. repeat split; assumption.
  - destruct (StoreBufferAddObject_effect obj vm block Hb)
      as [vm1 [block1 [H1 [Hb1 [Hi1 Hrec1]]]]].
    rewrite H1. simpl.
    destruct (IH vm1 block1 Hb1) as [vm' [block' [Hrun [Hb' [Hi' Hrec']]]]].
    exists vm', block'. repeat split; try assumption.
    + congruence.
    + rewrite Hrec', app_assoc, Hrec1, <- !app_assoc. reflexivity.
Qed.


(** * Further properties of the inline member functions *)

(** ** Setters and getters *)

(** X1. Each setter of a [State] member makes its getter return the value
    set and writes no other member of the thread; [set_top_handle_scope]
    does so in a debug build, and in a release build writes nothing while
    its getter returns 0. *)
Theorem State_setters_write_one_member :
  forall (t : Thread) (v : Z),
    (top_resource (set_top_resource v t) = v /\
     writes_only_State_member S_top_resource t (set_top_resource v t)) /\
    (timeline_block (set_timeline_block v t) = v /\
     writes_only_State_member S_timeline_block t (set_timeline_block v t)) /\
    (long_jump_base (set_long_jump_base v t) = v /\
     writes_only_State_member S_long_jump_base t (set_long_jump_base v t)) /\
    (zone (set_zone v t) = v /\
     writes_only_State_member S_zone t (set_zone v t)) /\
    (top_exit_frame_info (set_top_exit_frame_info v t) = v /\
     writes_only_State_member S_top_exit_frame_info t
       (set_top_exit_frame_info v t)) /\
    (top_handle_scope (set_top_handle_scope v t) = (if DEBUG then v else 0) /\
     writes_only_State_member S_top_handle_scope t
       (set_top_handle_scope v t) /\
     (DEBUG = false -> set_top_handle_scope v t = t)).
Proof.
  intros t v.
  assert (Hout : forall s, same_outside_state t (with_state_ s t)).
  { intros s. unfold same_outside_state, with_state_; simpl. repeat split. }
  repeat apply conj; try reflexivity; try apply Hout;
    try (intros m' Hm'; destruct m'; try reflexivity; congruence).
  all: unfold top_handle_scope, set_top_handle_scope; destruct DEBUG;
    try reflexivity;
    try (intros m' Hm'; destruct m'; try reflexivity; congruence);
    try (intros m' _; reflexivity);
    intros Hrelease; discriminate Hrelease.
Qed.

(** X2. Saving the current value of a member, setting another one and
    setting the saved value back gives the original thread, for
    [top_resource], [timeline_block], [long_jump_base], [zone],
    [top_exit_frame_info], [top_handle_scope] and [vm_tag]. *)
Theorem save_set_restore_round_trip :
  forall (t : Thread) (v : Z),
    set_top_resource (top_resource t) (set_top_resource v t) = t /\
    set_timeline_block (timeline_block t) (set_timeline_block v t) = t /\
    set_long_jump_base (long_jump_base t) (set_long_jump_base v t) = t /\
    set_zone (zone t) (set_zone v t) = t /\
    set_top_exit_frame_info (top_exit_frame_info t)
      (set_top_exit_frame_info v t) = t /\
    set_top_handle_scope (top_handle_scope t) (set_top_handle_scope v t) = t /\
    set_vm_tag (vm_tag t) (set_vm_tag v t) = t.
Proof.
  intros t v.
  unfold set_top_handle_scope, top_handle_scope.
  destruct DEBUG; destruct t as [? ? ? ? ? s ? ? ? ? ? ? ? ? ? ?];
    destruct s; repeat apply conj; reflexivity.
Qed.

(** ** Scope-active flags *)

Lemma ReusableHandleKind_eqb_eq :
  forall a b : ReusableHandleKind,
    ReusableHandleKind_eqb a b = true <-> a = b.
Proof.
  intros a b. split.
  - destruct a, b; simpl; intros H; try reflexivity; discriminate H.
  - intros ->. destruct b; reflexivity.
Qed.

Lemma scope_flag_after_set :
  forall (t : Thread) (k k' : ReusableHandleKind) (v : bool),
    reusable_handle_scope_active k' (set_reusable_handle_scope_active k v t) =
    if ReusableHandleKind_eqb k' k then v
    else reusable_handle_scope_active k' t.
Proof.
  intros t k k' v. reflexivity.
Qed.

Lemma IS_REUSABLE_HANDLE_SCOPE_ACTIVE_ext :
  forall (objects : list ReusableHandleKind) (t t' : Thread),
    (forall k, reusable_handle_scope_active_ t' k =
               reusable_handle_scope_active_ t k) ->
    IS_REUSABLE_HANDLE_SCOPE_ACTIVE objects t' =
    IS_REUSABLE_HANDLE_SCOPE_ACTIVE objects t.
Proof.
  induction objects as [|o rest IH]; intros t t' Hflags; simpl.
  - reflexivity.
  - rewrite Hflags, (IH t t' Hflags). reflexivity.
Qed.

(** X3. Setting the scope-active flag of one kind makes its getter return
    the value set, leaves the flag of every other kind as it was and
    writes no other member. *)
Theorem scope_active_flag_set_get :
  forall (t : Thread) (k : ReusableHandleKind) (v : bool),
    reusable_handle_scope_active k (set_reusable_handle_scope_active k v t)
      = v /\
    (forall k', k' <> k ->
       reusable_handle_scope_active k'
         (set_reusable_handle_scope_active k v t) =
       reusable_handle_scope_active k' t) /\
    same_outside_scope_flags t (set_reusable_handle_scope_active k v t).
Proof.
  intros t k v. split; [|split].
  - rewrite scope_flag_after_set.
    rewrite (proj2 (ReusableHandleKind_eqb_eq k k) eq_refl). reflexivity.
  - intros k' Hk'. rewrite scope_flag_after_set.
    destruct (ReusableHandleKind_eqb k' k) eqn:Heq; [|reflexivity].
    apply ReusableHandleKind_eqb_eq in Heq. contradiction.
  - unfold same_outside_scope_flags. repeat split.
Qed.

(** X4. Marking the scope of a kind active makes
    [IsAnyReusableHandleScopeActive] true; marking it inactive again, when
    it was inactive before, restores every flag and the answer of
    [IsAnyReusableHandleScopeActive]. *)
Theorem scope_open_close :
  forall (t : Thread) (k : ReusableHandleKind),
    IsAnyReusableHandleScopeActive
      (set_reusable_handle_scope_active k true t) = true /\
    (reusable_handle_scope_active k t = false ->
     (forall k',
        reusable_handle_scope_active k'
          (set_reusable_handle_scope_active k false
             (set_reusable_handle_scope_active k true t)) =
        reusable_handle_scope_active k' t) /\
     IsAnyReusableHandleScopeActive
       (set_reusable_handle_scope_active k false
          (set_reusable_handle_scope_active k true t)) =
     IsAnyReusableHandleScopeActive t).
Proof.
  intros t k. split.
  - unfold IsAnyReusableHandleScopeActive.
    apply IS_REUSABLE_HANDLE_SCOPE_ACTIVE_spec. exists k.
    split; [apply ReusableHandleKind_listed|].
    change (reusable_handle_scope_active k
              (set_reusable_handle_scope_active k true t) = true).
    rewrite scope_flag_after_set.
    rewrite (proj2 (ReusableHandleKind_eqb_eq k k) eq_refl). reflexivity.
  - intros Hinactive.
    assert (Hflags : forall k',
              reusable_handle_scope_active k'
                (set_reusable_handle_scope_active k false
                   (set_reusable_handle_scope_active k true t)) =
              reusable_handle_scope_active k' t).
    { intros k'. rewrite !scope_flag_after_set.
      destruct (ReusableHandleKind_eqb k' k) eqn:Heq; [|reflexivity].
      apply ReusableHandleKind_eqb_eq in Heq. subst k'.
      symmetry. exact Hinactive. }
    split; [exact Hflags|].
    unfold IsAnyReusableHandleScopeActive.
    apply IS_REUSABLE_HANDLE_SCOPE_ACTIVE_ext. exact Hflags.
Qed.

(** X5. The answer of the flag test does not depend on the order or
    multiplicity of the kinds in the list it is expanded over: every list
    that names all kinds gives the answer of
    [IsAnyReusableHandleScopeActive]. *)
Theorem scope_active_test_order_independent :
  forall (objects : list ReusableHandleKind) (t : Thread),
    (forall k, In k objects) ->
    IS_REUSABLE_HANDLE_SCOPE_ACTIVE objects t =
    IsAnyReusableHandleScopeActive t.
Proof.
  intros objects t Hall. unfold IsAnyReusableHandleScopeActive.
  destruct (IS_REUSABLE_HANDLE_SCOPE_ACTIVE REUSABLE_HANDLE_LIST t) eqn:Hany.
  - apply IS_REUSABLE_HANDLE_SCOPE_ACTIVE_spec in Hany.
    destruct Hany as [k [_ Hk]].
    apply IS_REUSABLE_HANDLE_SCOPE_ACTIVE_spec. exists k. split; auto.
  - destruct (IS_REUSABLE_HANDLE_SCOPE_ACTIVE objects t) eqn:Hobj;
      [|reflexivity].
    apply IS_REUSABLE_HANDLE_SCOPE_ACTIVE_spec in Hobj.
    destruct Hobj as [k [_ Hk]].
    rewrite <- Hany. symmetry.
    apply IS_REUSABLE_HANDLE_SCOPE_ACTIVE_spec. exists k.
    split; [apply ReusableHandleKind_listed | exact Hk].
Qed.

(** ** Nesting counters, one level and many *)

Lemma VM_eta :
  forall vm : VM, mkVM (thread vm) (attach vm) (isolates vm) = vm.
Proof.
  intros vm. destruct vm. reflexivity.
Qed.

Lemma set_no_handle_scope_depth_twice :
  forall (t : Thread) (a b : Z),
    b = State.no_handle_scope_depth (state_ t) ->
    with_state_
      (State.set_no_handle_scope_depth b
         (state_ (with_state_
                    (State.set_no_handle_scope_depth a (state_ t)) t)))
      (with_state_ (State.set_no_handle_scope_depth a (state_ t)) t) = t.
Proof.
  intros t a b ->. destruct t as [? ? ? ? ? s ? ? ? ? ? ? ? ? ? ?].
  destruct s. reflexivity.
Qed.

Lemma set_no_safepoint_scope_depth_twice :
  forall (t : Thread) (a b : Z),
    b = State.no_safepoint_scope_depth (state_ t) ->
    with_state_
      (State.set_no_safepoint_scope_depth b
         (state_ (with_state_
                    (State.set_no_safepoint_scope_depth a (state_ t)) t)))
      (with_state_ (State.set_no_safepoint_scope_depth a (state_ t)) t) = t.
Proof.
  intros t a b ->. destruct t as [? ? ? ? ? s ? ? ? ? ? ? ? ? ? ?].
  destruct s. reflexivity.
Qed.

Lemma IncrementNoHandleScopeDepth_undone :
  32 <= kBitsPerWord ->
  forall t : Thread,
    0 <= State.no_handle_scope_depth (state_ t) < INT_MAX ->
    exists t1,
      IncrementNoHandleScopeDepth t = Some t1 /\
      DecrementNoHandleScopeDepth t1 = Some t /\
      State.no_handle_scope_depth (state_ t)
        <= State.no_handle_scope_depth (state_ t1)
        <= State.no_handle_scope_depth (state_ t) + 1.
Proof.
  intros Hbits t Hh. unfold INT_MAX in Hh.
  unfold IncrementNoHandleScopeDepth, DecrementNoHandleScopeDepth, ASSERT.
  destruct DEBUG.
  - assert (Hlt : (State.no_handle_scope_depth (state_ t) <? INT_MAX) = true)
      by (apply Z.ltb_lt; unfold INT_MAX; lia).
    rewrite Hlt. simpl. eexists. split; [reflexivity|]. simpl.
    rewrite wrap_signed_small by (try assumption; lia).
    assert (Hgt : (State.no_handle_scope_depth (state_ t) + 1 >? 0) = true)
      by (apply Z.gtb_lt; lia).
    rewrite Hgt. simpl. split; [|lia]. f_equal.
    apply set_no_handle_scope_depth_twice.
    rewrite wrap_signed_small by (try assumption; lia). lia.
  - exists t. repeat split; lia.
Qed.

Lemma DecrementNoHandleScopeDepth_undone :
  32 <= kBitsPerWord ->
  forall t : Thread,
    0 < State.no_handle_scope_depth (state_ t) <= INT_MAX ->
    exists t1,
      DecrementNoHandleScopeDepth t = Some t1 /\
      IncrementNoHandleScopeDepth t1 = Some t.
Proof.
  intros Hbits t Hh. unfold INT_MAX in Hh.
  unfold IncrementNoHandleScopeDepth, DecrementNoHandleScopeDepth, ASSERT.
  destruct DEBUG.
  - assert (Hgt : (State.no_handle_scope_depth (state_ t) >? 0) = true)
      by (apply Z.gtb_lt; lia).
    rewrite Hgt. simpl. eexists. split; [reflexivity|]. simpl.
    rewrite wrap_signed_small by (try assumption; lia).
    assert (Hlt : (State.no_handle_scope_depth (state_ t) - 1 <? INT_MAX)
                  = true)
      by (apply Z.ltb_lt; unfold INT_MAX; lia).
    rewrite Hlt. simpl. f_equal.
    apply set_no_handle_scope_depth_twice.
    rewrite wrap_signed_small by (try assumption; lia). lia.
  - exists t. split; reflexivity.
Qed.

Lemma IncrementNoSafepointScopeDepth_undone :
  forall t : Thread,
    0 <= State.no_safepoint_scope_depth (state_ t) < INT_MAX ->
    exists t1,
      IncrementNoSafepointScopeDepth t = Some t1 /\
      DecrementNoSafepointScopeDepth t1 = Some t /\
      State.no_safepoint_scope_depth (state_ t)
        <= State.no_safepoint_scope_depth (state_ t1)
        <= State.no_safepoint_scope_depth (state_ t) + 1.
Proof.
  intros t Hs. unfold INT_MAX in Hs.
  unfold IncrementNoSafepointScopeDepth, DecrementNoSafepointScopeDepth,
    ASSERT, wrap_int32.
  destruct DEBUG.
  - assert (Hlt : (State.no_safepoint_scope_depth (state_ t) <? INT_MAX) = true)
      by (apply Z.ltb_lt; unfold INT_MAX; lia).
    rewrite Hlt. simpl. eexists. split; [reflexivity|]. simpl.
    rewrite wrap_signed_small by lia.
    assert (Hgt : (State.no_safepoint_scope_depth (state_ t) + 1 >? 0) = true)
      by (apply Z.gtb_lt; lia).
    rewrite Hgt. simpl. split; [|lia]. f_equal.
    apply set_no_safepoint_scope_depth_twice.
    rewrite wrap_signed_small by lia. lia.
  - exists t. repeat split; lia.
Qed.

Lemma DecrementNoSafepointScopeDepth_undone :
  forall t : Thread,
    0 < State.no_safepoint_scope_depth (state_ t) <= INT_MAX ->
    exists t1,
      DecrementNoSafepointScopeDepth t = Some t1 /\
      IncrementNoSafepointScopeDepth t1 = Some t.
Proof.
  intros t Hs. unfold INT_MAX in Hs.
  unfold IncrementNoSafepointScopeDepth, DecrementNoSafepointScopeDepth,
    ASSERT, wrap_int32.
  destruct DEBUG.
  - assert (Hgt : (State.no_safepoint_scope_depth (state_ t) >? 0) = true)
      by (apply Z.gtb_lt; lia).
    rewrite Hgt. simpl. eexists. split; [reflexivity|]. simpl.
    rewrite wrap_signed_small by lia.
    assert (Hlt : (State.no_safepoint_scope_depth (state_ t) - 1 <? INT_MAX)
                  = true)
      by (apply Z.ltb_lt; unfold INT_MAX; lia).
    rewrite Hlt. simpl. f_equal.
    apply set_no_safepoint_scope_depth_twice.
    rewrite wrap_signed_small by lia. lia.
  - exists t. split; reflexivity.
Qed.

(** X6. In either build, with a word of at least 32 bits: an increment of
    a nesting counter below [INT_MAX] followed by the matching decrement
    returns exactly the thread it started from, and so does a decrement of
    a positive counter followed by the matching increment. *)
Theorem depth_increment_decrement_round_trip :
  32 <= kBitsPerWord ->
  forall t : Thread,
    (0 <= State.no_handle_scope_depth (state_ t) < INT_MAX ->
     (t1 <- IncrementNoHandleScopeDepth t ;;
      DecrementNoHandleScopeDepth t1) = Some t) /\
    (0 < State.no_handle_scope_depth (state_ t) <= INT_MAX ->
     (t1 <- DecrementNoHandleScopeDepth t ;;
      IncrementNoHandleScopeDepth t1) = Some t) /\
    (0 <= State.no_safepoint_scope_depth (state_ t) < INT_MAX ->
     (t1 <- IncrementNoSafepointScopeDepth t ;;
      DecrementNoSafepointScopeDepth t1) = Some t) /\
    (0 < State.no_safepoint_scope_depth (state_ t) <= INT_MAX ->
     (t1 <- DecrementNoSafepointScopeDepth t ;;
      IncrementNoSafepointScopeDepth t1) = Some t).
Proof.
  intros Hbits t. repeat apply conj; intros H.
  - destruct (IncrementNoHandleScopeDepth_undone Hbits t H)
      as [t1 [H1 [H2 _]]].
    rewrite H1. exact H2.
  - destruct (DecrementNoHandleScopeDepth_undone Hbits t H) as [t1 [H1 H2]].
    rewrite H1. exact H2.
  - destruct (IncrementNoSafepointScopeDepth_undone t H) as [t1 [H1 [H2 _]]].
    rewrite H1. exact H2.
  - destruct (DecrementNoSafepointScopeDepth_undone t H) as [t1 [H1 H2]].
    rewrite H1. exact H2.
Qed.

Lemma run_nested_handle_scopes :
  32 <= kBitsPerWord ->
  forall (n : nat) (vm : VM),
    0 <= State.no_handle_scope_depth (state_ (thread vm)) ->
    State.no_handle_scope_depth (state_ (thread vm)) + Z.of_nat n
      <= INT_MAX ->
    run (repeat Op_IncrementNoHandleScopeDepth n ++
         repeat Op_DecrementNoHandleScopeDepth n) vm = Some vm.
Proof.
  intros Hbits. induction n as [|n IH]; intros vm Hlo Hhi.
  - reflexivity.
  - destruct (IncrementNoHandleScopeDepth_undone Hbits (thread vm))
      as [t1 [Hinc [Hdec Hstep]]]; [lia|].
    replace (repeat Op_IncrementNoHandleScopeDepth (S n) ++
             repeat Op_DecrementNoHandleScopeDepth (S n))
      with (Op_IncrementNoHandleScopeDepth ::
            (repeat Op_IncrementNoHandleScopeDepth n ++
             repeat Op_DecrementNoHandleScopeDepth n) ++
            [Op_DecrementNoHandleScopeDepth]).
    2: { simpl. f_equal. rewrite <- app_assoc. f_equal.
         symmetry. apply repeat_cons. }
    change (run (?op :: ?rest) vm) with (vm1 <- step op vm ;; run rest vm1).
    unfold step at 1, on_thread_checked at 1. rewrite Hinc. simpl bind.
    rewrite run_app, IH by (simpl; lia). simpl.
    unfold on_thread_checked. simpl. rewrite Hdec. simpl.
    unfold with_thread. simpl. rewrite VM_eta. reflexivity.
Qed.

Lemma run_nested_safepoint_scopes :
  forall (n : nat) (vm : VM),
    0 <= State.no_safepoint_scope_depth (state_ (thread vm)) ->
    State.no_safepoint_scope_depth (state_ (thread vm)) + Z.of_nat n
      <= INT_MAX ->
    run (repeat Op_IncrementNoSafepointScopeDepth n ++
         repeat Op_DecrementNoSafepointScopeDepth n) vm = Some vm.
Proof.
  induction n as [|n IH]; intros vm Hlo Hhi.
  - reflexivity.
  - destruct (IncrementNoSafepointScopeDepth_undone (thread vm))
      as [t1 [Hinc [Hdec Hstep]]]; [lia|].
    replace (repeat Op_IncrementNoSafepointScopeDepth (S n) ++
             repeat Op_DecrementNoSafepointScopeDepth (S n))
      with (Op_IncrementNoSafepointScopeDepth ::
            (repeat Op_IncrementNoSafepointScopeDepth n ++
             repeat Op_DecrementNoSafepointScopeDepth n) ++
            [Op_DecrementNoSafepointScopeDepth]).
    2: { simpl. f_equal. rewrite <- app_assoc. f_equal.
         symmetry. apply repeat_cons. }
    change (run (?op :: ?rest) vm) with (vm1 <- step op vm ;; run rest vm1).
    unfold step at 1, on_thread_checked at 1. rewrite Hinc. simpl bind.
    rewrite run_app, IH by (simpl; lia). simpl.
    unfold on_thread_checked. simpl. rewrite Hdec. simpl.
    unfold with_thread. simpl. rewrite VM_eta. reflexivity.
Qed.

(** X7. Scopes nested [n] deep unwind completely: [n] increments of a
    nesting counter followed by [n] decrements succeed and give back the
    state they started from, provided the counter starts non-negative and
    has room for [n] more levels below [INT_MAX]. *)
Theorem nested_scopes_unwind :
  32 <= kBitsPerWord ->
  forall (n : nat) (vm : VM),
    (0 <= State.no_handle_scope_depth (state_ (thread vm)) ->
     State.no_handle_scope_depth (state_ (thread vm)) + Z.of_nat n
       <= INT_MAX ->
     run (repeat Op_IncrementNoHandleScopeDepth n ++
          repeat Op_DecrementNoHandleScopeDepth n) vm = Some vm) /\
    (0 <= State.no_safepoint_scope_depth (state_ (thread vm)) ->
     State.no_safepoint_scope_depth (state_ (thread vm)) + Z.of_nat n
       <= INT_MAX ->
     run (repeat Op_IncrementNoSafepointScopeDepth n ++
          repeat Op_DecrementNoSafepointScopeDepth n) vm = Some vm).
Proof.
  intros Hbits n vm. split.
  - apply run_nested_handle_scopes. exact Hbits.
  - apply run_nested_safepoint_scopes.
Qed.

(** X8. In a debug build a sequence of depth calls that asks for a net
    change the counter cannot hold always fails: if, from counters in
    [[0, INT_MAX]], the increments minus the decrements of either counter
    would take it below 0 or above [INT_MAX], the run hits an assertion. *)
Theorem unbalanced_depth_calls_fail :
  DEBUG = true -> 32 <= kBitsPerWord ->
  forall (calls : list DepthCall) (vm : VM),
    depths_in_range (thread vm) ->
    (State.no_handle_scope_depth (state_ (thread vm))
       + net_handle_scope_depth calls < 0 \/
     INT_MAX < State.no_handle_scope_depth (state_ (thread vm))
                 + net_handle_scope_depth calls \/
     State.no_safepoint_scope_depth (state_ (thread vm))
       + net_safepoint_scope_depth calls < 0 \/
     INT_MAX < State.no_safepoint_scope_depth (state_ (thread vm))
                 + net_safepoint_scope_depth calls) ->
    run (map op_of_depth_call calls) vm = None.
Proof.
  intros Hdebug Hbits calls vm Hrange Hnet.
  destruct (run (map op_of_depth_call calls) vm) as [vm'|] eqn:Hrun;
    [|reflexivity].
  exfalso.
  destruct (depth_calls_run Hdebug Hbits calls vm vm' Hrange Hrun)
    as [[Hh' Hs'] [Hh Hs]].
  unfold net_handle_scope_depth, net_safepoint_scope_depth in Hnet. lia.
Qed.

(** X9. A depth call that succeeds writes at most its own counter: every
    other [State] member, every member outside [State], the attach state
    and the isolates are as before, in either build. *)
Theorem depth_call_writes_its_counter_only :
  forall (c : DepthCall) (vm vm' : VM),
    step (op_of_depth_call c) vm = Some vm' ->
    writes_only_State_member (counter_of c) (thread vm) (thread vm') /\
    attach vm' = attach vm /\
    isolates vm' = isolates vm.
Proof.
  intros c vm vm' Hstep.
  assert (Hsame : writes_only_State_member (counter_of c)
                    (thread vm) (thread vm)).
  { split; [reflexivity|]. unfold same_outside_state. repeat split. }
  destruct c; simpl in Hstep; unfold on_thread_checked in Hstep;
    unfold IncrementNoHandleScopeDepth, DecrementNoHandleScopeDepth,
      IncrementNoSafepointScopeDepth, DecrementNoSafepointScopeDepth
      in Hstep;
    (destruct DEBUG;
     [ match type of Hstep with
       | bind (bind (ASSERT ?b) _) _ = _ =>
           destruct (ASSERT b); simpl in Hstep; [|discriminate Hstep]
       end
     | simpl in Hstep ];
     injection Hstep as <-; simpl;
     (split; [|split; reflexivity]);
     first
       [ exact Hsame
       | split;
         [ intros m' Hm'; destruct m'; try reflexivity;
           exfalso; apply Hm'; reflexivity
         | unfold same_outside_state; simpl; repeat split ] ]).
Qed.

(** ** The depth getter against the member it reads *)

Lemma wrap_signed_range :
  forall bits z : Z,
    0 < bits ->
    - 2 ^ (bits - 1) <= wrap_signed bits z < 2 ^ (bits - 1).
Proof.
  intros bits z Hbits. unfold wrap_signed.
  assert (Hdouble : 2 ^ bits = 2 * 2 ^ (bits - 1)).
  { replace bits with (Z.succ (bits - 1)) at 1 by lia.
    apply Z.pow_succ_r. lia. }
  assert (Hpos : 0 < 2 ^ (bits - 1)) by (apply Z.pow_pos_nonneg; lia).
  pose proof (Z.mod_pos_bound (z + 2 ^ (bits - 1)) (2 ^ bits)) as Hmod.
  lia.
Qed.

(** X10. In a debug build [no_handle_scope_depth()], an [int32_t] read of
    an [intptr_t] member, always lies in the 32-bit signed range and
    equals the member exactly when the member lies in that range;
    [no_safepoint_scope_depth()] always equals its member. *)
Theorem depth_getters_against_members :
  DEBUG = true ->
  forall t : Thread,
    - 2 ^ 31 <= no_handle_scope_depth t < 2 ^ 31 /\
    (no_handle_scope_depth t = State.no_handle_scope_depth (state_ t) <->
     - 2 ^ 31 <= State.no_handle_scope_depth (state_ t) < 2 ^ 31) /\
    no_safepoint_scope_depth t = State.no_safepoint_scope_depth (state_ t).
Proof.
  intros Hdebug t.
  unfold no_handle_scope_depth, no_safepoint_scope_depth, wrap_int32.
  rewrite Hdebug.
  pose proof (wrap_signed_range 32
                (State.no_handle_scope_depth (state_ t))) as Hrange.
  change (32 - 1) with 31 in Hrange.
  split; [apply Hrange; lia|]. split; [|reflexivity]. split.
  - intros Heq. rewrite <- Heq. apply Hrange. lia.
  - intros Hin. apply wrap_signed_small; [lia | exact Hin].
Qed.

(** ** Runs of inline mutators *)

Lemma inline_step_None :
  forall (op : InlineOp) (vm : VM),
    step (op_of_inline op) vm = None ->
    DEBUG = true /\ is_depth_op op = true.
Proof.
  intros op vm H.
  destruct op; simpl in H; try discriminate H;
    unfold on_thread_checked,
      IncrementNoHandleScopeDepth, DecrementNoHandleScopeDepth,
      IncrementNoSafepointScopeDepth, DecrementNoSafepointScopeDepth in H;
    (destruct DEBUG; [split; reflexivity | discriminate H]).
Qed.

(** X11. A run of inline mutators can fail only at an assertion of a depth
    call in a debug build: if it fails, the build is a debug build and the
    sequence contains one of the four depth calls. *)
Theorem inline_run_fails_only_at_depth_assertion :
  forall (ops : list InlineOp) (vm : VM),
    run (map op_of_inline ops) vm = None ->
    DEBUG = true /\ existsb is_depth_op ops = true.
Proof.
  induction ops as [|op rest IH]; intros vm H; simpl in H.
  - discriminate H.
  - destruct (step (op_of_inline op) vm) as [vm1|] eqn:Hstep; simpl in H.
    + destruct (IH vm1 H) as [Hdebug Hex]. split; [exact Hdebug|].
      simpl. rewrite Hex. apply orb_true_r.
    + destruct (inline_step_None op vm Hstep) as [Hdebug Hop].
      split; [exact Hdebug|]. simpl. rewrite Hop. reflexivity.
Qed.

Lemma inline_step_frame :
  forall (op : InlineOp) (vm vm' : VM),
    step (op_of_inline op) vm = Some vm' ->
    same_fixed_members (thread vm) (thread vm') /\
    attach vm' = attach vm /\
    isolates vm' = isolates vm /\
    (is_state_op op = true -> same_outside_state (thread vm) (thread vm')).
Proof.
  intros op vm vm' H.
  destruct op; simpl in H;
    unfold on_thread, on_thread_checked, set_top_handle_scope,
      IncrementNoHandleScopeDepth, DecrementNoHandleScopeDepth,
      IncrementNoSafepointScopeDepth, DecrementNoSafepointScopeDepth in H;
    try (destruct DEBUG;
         [ match type of H with
           | bind (bind (ASSERT ?b) _) _ = _ =>
               destruct (ASSERT b); simpl in H; [|discriminate H]
           | _ => idtac
           end
         | simpl in H ]);
    injection H as <-;
    (split; [unfold same_fixed_members; simpl; repeat split|]);
    (split; [reflexivity|]); (split; [reflexivity|]);
    simpl; intros Hstate; try discriminate Hstate;
    unfold same_outside_state; simpl; repeat split.
Qed.

Lemma same_fixed_members_trans :
  forall t1 t2 t3 : Thread,
    same_fixed_members t1 t2 -> same_fixed_members t2 t3 ->
    same_fixed_members t1 t3.
Proof.
  unfold same_fixed_members. intros t1 t2 t3 H12 H23.
  decompose [and] H12. decompose [and] H23.
  repeat split; congruence.
Qed.

Lemma same_outside_state_trans :
  forall t1 t2 t3 : Thread,
    same_outside_state t1 t2 -> same_outside_state t2 t3 ->
    same_outside_state t1 t3.
Proof.
  unfold same_outside_state. intros t1 t2 t3 H12 H23.
  decompose [and] H12. decompose [and] H23.
  repeat split; congruence.
Qed.

(** X12. No run of inline mutators changes the thread id, the interrupt
    callback and its data, the isolate, the heap, the lock, the store
    buffer block, the log, a cached constant, a runtime entry point, a
    handle pointer or the handle storage, so every [object##Handle()]
    reads what it read before; nor the attach state or any isolate. *)
Theorem inline_run_keeps_fixed_members :
  forall (ops : list InlineOp) (vm vm' : VM),
    run (map op_of_inline ops) vm = Some vm' ->
    same_fixed_members (thread vm) (thread vm') /\
    (forall object, Handle object (thread vm') = Handle object (thread vm)) /\
    attach vm' = attach vm /\
    isolates vm' = isolates vm.
Proof.
  assert (Hrun : forall (ops : list InlineOp) (vm vm' : VM),
            run (map op_of_inline ops) vm = Some vm' ->
            same_fixed_members (thread vm) (thread vm') /\
            attach vm' = attach vm /\
            isolates vm' = isolates vm).
  { induction ops as [|op rest IH]; intros vm vm' H; simpl in H.
    - injection H as <-. unfold same_fixed_members. repeat split.
    - destruct (step (op_of_inline op) vm) as [vm1|] eqn:Hstep; simpl in H;
        [|discriminate H].
      destruct (inline_step_frame op vm vm1 Hstep) as [Hf1 [Ha1 [Hi1 _]]].
      destruct (IH vm1 vm' H) as [Hf [Ha Hi]].
      split; [exact (same_fixed_members_trans _ _ _ Hf1 Hf)|].
      split; congruence. }
  intros ops vm vm' H. destruct (Hrun ops vm vm' H) as [Hf [Ha Hi]].
  split; [exact Hf|]. split; [|split; assumption].
  intros object. unfold Handle. unfold same_fixed_members in Hf.
  destruct Hf as (_ & _ & _ & _ & _ & _ & _ & _ & _ & _ & _ & Hh & Hs).
  rewrite Hh, Hs. reflexivity.
Qed.

Lemma ClearState_determined :
  forall t t' : Thread,
    same_outside_state t t' -> ClearState t' = ClearState t.
Proof.
  intros t t' H. unfold same_outside_state in H.
  destruct H as (H1 & H2 & H3 & H4 & H5 & H6 & H7 & H8 & H9 & H10 & H11
                 & H12 & H13 & H14 & H15).
  unfold ClearState, with_state_.
  rewrite H1, H2, H3, H4, H5, H6, H7, H8, H9, H10, H11, H12, H13, H14, H15.
  reflexivity.
Qed.

Lemma state_ops_run_frame :
  forall (ops : list InlineOp) (vm vm' : VM),
    forallb is_state_op ops = true ->
    run (map op_of_inline ops) vm = Some vm' ->
    same_outside_state (thread vm) (thread vm').
Proof.
  induction ops as [|op rest IH]; intros vm vm' Hops H; simpl in H.
  - injection H as <-. unfold same_outside_state. repeat split.
  - simpl in Hops. apply andb_true_iff in Hops. destruct Hops as [Hop Hrest].
    destruct (step (op_of_inline op) vm) as [vm1|] eqn:Hstep; simpl in H;
      [|discriminate H].
    destruct (inline_step_frame op vm vm1 Hstep) as [_ [_ [_ Hs1]]].
    exact (same_outside_state_trans _ _ _ (Hs1 Hop) (IH vm1 vm' Hrest H)).
Qed.

(** X13. [ClearState] discards whatever the [State] setters and depth calls
    built up: after any successful run of inline mutators other than
    [set_vm_tag] and the scope-active setters, clearing the state gives
    the same thread as clearing it before the run; in particular clearing
    twice is clearing once. *)
Theorem ClearState_absorbs_state_ops :
  forall (ops : list InlineOp) (vm vm' : VM),
    forallb is_state_op ops = true ->
    run (map op_of_inline ops) vm = Some vm' ->
    ClearState (thread vm') = ClearState (thread vm) /\
    ClearState (ClearState (thread vm')) = ClearState (thread vm).
Proof.
  intros ops vm vm' Hops Hrun.
  pose proof (state_ops_run_frame ops vm vm' Hops Hrun) as Hframe.
  rewrite (ClearState_determined _ _ Hframe). split; reflexivity.
Qed.

(** X14. Directly after [ClearState] every getter of the state returns 0
    or null in either build, and in a debug build both decrements fail
    their assertion, whatever the depths were before the clearing. *)
Theorem after_ClearState :
  forall t : Thread,
    zone (ClearState t) = NULL /\
    top_exit_frame_info (ClearState t) = 0 /\
    top_resource (ClearState t) = NULL /\
    timeline_block (ClearState t) = NULL /\
    long_jump_base (ClearState t) = NULL /\
    top_handle_scope (ClearState t) = NULL /\
    no_handle_scope_depth (ClearState t) = 0 /\
    no_safepoint_scope_depth (ClearState t) = 0 /\
    (DEBUG = true ->
     DecrementNoHandleScopeDepth (ClearState t) = None /\
     DecrementNoSafepointScopeDepth (ClearState t) = None).
Proof.
  intros t.
  unfold top_handle_scope, no_handle_scope_depth, no_safepoint_scope_depth,
    DecrementNoHandleScopeDepth, DecrementNoSafepointScopeDepth, ASSERT.
  destruct DEBUG; repeat apply conj; try reflexivity.
  - intros _. split; reflexivity.
  - intros H. discriminate H.
Qed.

Lemma inline_step_latest :
  forall (op : InlineOp) (vm vm' : VM),
    step (op_of_inline op) vm = Some vm' ->
    vm_tag (thread vm') = latest_vm_tag [op] (vm_tag (thread vm)) /\
    top_resource (thread vm') =
      latest_top_resource [op] (top_resource (thread vm)) /\
    long_jump_base (thread vm') =
      latest_long_jump_base [op] (long_jump_base (thread vm)).
Proof.
  intros op vm vm' H.
  destruct op; simpl in H;
    unfold on_thread, on_thread_checked, set_top_handle_scope,
      IncrementNoHandleScopeDepth, DecrementNoHandleScopeDepth,
      IncrementNoSafepointScopeDepth, DecrementNoSafepointScopeDepth in H;
    try (destruct DEBUG;
         [ match type of H with
           | bind (bind (ASSERT ?b) _) _ = _ =>
               destruct (ASSERT b); simpl in H; [|discriminate H]
           | _ => idtac
           end
         | simpl in H ]);
    injection H as <-; repeat split.
Qed.

(** X15. After a successful run of inline mutators [vm_tag()] returns the
    tag of the last [set_vm_tag] of the run, or the tag from before the
    run; [top_resource()] and [long_jump_base()] return the value of their
    last setter call since the last [ClearState], null if [ClearState]
    came later, or the value from before the run. *)
Theorem getters_return_latest_write :
  forall (ops : list InlineOp) (vm vm' : VM),
    run (map op_of_inline ops) vm = Some vm' ->
    vm_tag (thread vm') = latest_vm_tag ops (vm_tag (thread vm)) /\
    top_resource (thread vm') =
      latest_top_resource ops (top_resource (thread vm)) /\
    long_jump_base (thread vm') =
      latest_long_jump_base ops (long_jump_base (thread vm)).
Proof.
  induction ops as [|op rest IH]; intros vm vm' H; simpl in H.
  - injection H as <-. repeat split.
  - destruct (step (op_of_inline op) vm) as [vm1|] eqn:Hstep; simpl in H;
      [|discriminate H].
    destruct (inline_step_latest op vm vm1 Hstep) as [Ht [Hr Hl]].
    destruct (IH vm1 vm' H) as [Ht' [Hr' Hl']].
    unfold latest_vm_tag, latest_top_resource, latest_long_jump_base in *.
    simpl in *. rewrite Ht', Hr', Hl', Ht, Hr, Hl. repeat split.
Qed.

End ThreadModel.


(** * Instances

    The properties at a concrete configuration: 64-bit words, invalid
    thread id 0, null reference 1, store buffer threshold 3, and no runtime
    entry beyond a single name. *)

Arguments thread {RuntimeEntryName LeafRuntimeEntryName Mutex} v.
Arguments attach {RuntimeEntryName LeafRuntimeEntryName Mutex} v.
Arguments id_ {RuntimeEntryName LeafRuntimeEntryName Mutex} t.
Arguments store_buffer_block_ {RuntimeEntryName LeafRuntimeEntryName Mutex} t.
Arguments global_records {RuntimeEntryName LeafRuntimeEntryName Mutex} vm.
Arguments example_thread {RuntimeEntryName LeafRuntimeEntryName Mutex}
  Object_null id lock.
Arguments example_vm {RuntimeEntryName LeafRuntimeEntryName Mutex}
  Object_null id lock.
Arguments example_attached_vm {RuntimeEntryName LeafRuntimeEntryName Mutex}
  Object_null id lock isolate.
Arguments run DEBUG kBitsPerWord {RuntimeEntryName LeafRuntimeEntryName Mutex}
  Object_null store_buffer_threshold ops vm.
Arguments step DEBUG kBitsPerWord {RuntimeEntryName LeafRuntimeEntryName Mutex}
  Object_null store_buffer_threshold op vm.
Arguments StoreBufferBlockProcess {RuntimeEntryName LeafRuntimeEntryName Mutex}
  store_buffer_threshold policy vm.
Arguments no_handle_scope_depth DEBUG
  {RuntimeEntryName LeafRuntimeEntryName Mutex} t.
Arguments no_safepoint_scope_depth DEBUG
  {RuntimeEntryName LeafRuntimeEntryName Mutex} t.
Arguments IncrementNoHandleScopeDepth DEBUG kBitsPerWord
  {RuntimeEntryName LeafRuntimeEntryName Mutex} t.
Arguments id DEBUG kInvalidThreadId
  {RuntimeEntryName LeafRuntimeEntryName Mutex} t.

(** A thread enters isolate 100, leaves it and enters isolate 200: the run
    succeeds and ends attached as mutator. *)
Lemma isolate_attach_protocol_witness :
  exists vm : VM unit unit unit,
    run true 64 1 3
      (map op_of_call
         [Call_EnterIsolate 100; Call_ExitIsolate; Call_EnterIsolate 200])
      (example_vm 1 7 tt) = Some vm /\
    attach vm = AttachedAsMutator.
Proof.
  pose proof (isolate_attach_protocol true 64 unit unit unit 1 3)
    as [_ [_ Hruns]].
  destruct (Hruns (example_vm 1 7 tt)
              [Call_EnterIsolate 100; Call_ExitIsolate; Call_EnterIsolate 200]
              eq_refl) as [Hiff Hfinal].
  destruct (run true 64 1 3 _ (example_vm 1 7 tt)) as [vm|] eqn:Hrun.
  - exists vm. split; [reflexivity|]. exact (Hfinal vm eq_refl).
  - exfalso. apply (proj2 Hiff); reflexivity.
Defined.



(** In a debug build, on a thread with both depths 0: a decrement fails,
    and two increments and one decrement of the handle-scope depth with one
    increment of the safepoint depth leave the depths 1 and 1. *)
Lemma nesting_depth_counters_checked_witness :
  step true 64 1 3 Op_DecrementNoHandleScopeDepth
    (example_vm (Mutex := unit) (RuntimeEntryName := unit)
       (LeafRuntimeEntryName := unit) 1 7 tt) = None /\
  exists vm : VM unit unit unit,
    run true 64 1 3
      (map op_of_depth_call
         [Call_IncrementNoHandleScopeDepth; Call_IncrementNoHandleScopeDepth;
          Call_IncrementNoSafepointScopeDepth;
          Call_DecrementNoHandleScopeDepth])
      (example_vm 1 7 tt) = Some vm /\
    no_handle_scope_depth true (thread vm) = 1 /\
    no_safepoint_scope_depth true (thread vm) = 1.
Proof.
  assert (Hbits : 32 <= 64) by lia.
  assert (Hrange : depths_in_range unit unit unit
                     (thread (example_vm 1 7 tt))).
  { unfold depths_in_range, INT_MAX; simpl; lia. }
  pose proof (nesting_depth_counters_checked true 64 unit unit unit 1 3
                eq_refl Hbits (example_vm 1 7 tt) Hrange)
    as [Hdec0 [_ [_ [_ [_ [_ [_ [_ [Hruns _]]]]]]]]].
  split.
  - apply Hdec0. reflexivity.
  - eexists. split; [reflexivity|].
    destruct (Hruns
                [Call_IncrementNoHandleScopeDepth;
                 Call_IncrementNoHandleScopeDepth;
                 Call_IncrementNoSafepointScopeDepth;
                 Call_DecrementNoHandleScopeDepth] _ eq_refl)
      as [_ [_ [Hh Hs]]].
    split; [exact Hh | exact Hs].
Defined.

(** In a release build an increment returns the thread as it was and the
    depth getter returns 0. *)
Lemma release_build_debug_members_inert_witness :
  no_handle_scope_depth false
    (example_thread (Mutex := unit) (RuntimeEntryName := unit)
       (LeafRuntimeEntryName := unit) 1 7 tt) = 0 /\
  IncrementNoHandleScopeDepth false 64
    (example_thread (Mutex := unit) (RuntimeEntryName := unit)
       (LeafRuntimeEntryName := unit) 1 7 tt)
  = Some (example_thread 1 7 tt).
Proof.
  pose proof (release_build_debug_members_inert false 64 unit unit unit
                eq_refl (example_thread 1 7 tt) NULL)
    as [Hh [_ [_ [Hinc _]]]].
  split; [exact Hh | exact Hinc].
Defined.

(** Thread 7 enters an isolate, changes its tag, buffers a reference,
    clears its state and leaves: it is still thread 7, and [id()] says so. *)
Lemma thread_id_immutable_witness :
  exists vm : VM unit unit unit,
    run true 64 1 3
      [Op_EnterIsolate 100; Op_set_vm_tag 9; Op_StoreBufferAddObject 11;
       Op_ClearState; Op_ClearReusableHandles; Op_ExitIsolate]
      (example_vm 1 7 tt) = Some vm /\
    id_ (thread vm) = 7 /\
    id true 0 (thread vm) = Some 7.
Proof.
  destruct (run true 64 1 3 _ (example_vm 1 7 tt)) as [vm|] eqn:Hrun.
  - exists vm. split; [reflexivity|].
    destruct (thread_id_immutable true 64 0 unit unit unit 1 3 _ _ _ Hrun)
      as [Hid [Hvalid _]].
    split; [exact Hid|]. apply Hvalid. simpl. lia.
  - vm_compute in Hrun. discriminate Hrun.
Defined.

(** ** Instances of the further properties *)

Arguments IS_REUSABLE_HANDLE_SCOPE_ACTIVE
  {RuntimeEntryName LeafRuntimeEntryName Mutex} objects t.
Arguments IsAnyReusableHandleScopeActive
  {RuntimeEntryName LeafRuntimeEntryName Mutex} t.
Arguments set_reusable_handle_scope_active
  {RuntimeEntryName LeafRuntimeEntryName Mutex} object value t.
Arguments DecrementNoHandleScopeDepth DEBUG kBitsPerWord
  {RuntimeEntryName LeafRuntimeEntryName Mutex} t.
Arguments state_ {RuntimeEntryName LeafRuntimeEntryName Mutex} t.
Arguments isolate_ {RuntimeEntryName LeafRuntimeEntryName Mutex} t.
Arguments with_state_ {RuntimeEntryName LeafRuntimeEntryName Mutex} s t.
Arguments ClearState {RuntimeEntryName LeafRuntimeEntryName Mutex} t.
Arguments vm_tag {RuntimeEntryName LeafRuntimeEntryName Mutex} t.
Arguments top_resource {RuntimeEntryName LeafRuntimeEntryName Mutex} t.
Arguments long_jump_base {RuntimeEntryName LeafRuntimeEntryName Mutex} t.

(** With the [Code] scope active, the test expanded over the reversed list
    answers as [IsAnyReusableHandleScopeActive] does. *)
Lemma scope_active_test_order_independent_witness :
  IS_REUSABLE_HANDLE_SCOPE_ACTIVE (rev REUSABLE_HANDLE_LIST)
    (set_reusable_handle_scope_active K_Code true
       (example_thread (Mutex := unit) (RuntimeEntryName := unit)
          (LeafRuntimeEntryName := unit) 1 7 tt)) =
  IsAnyReusableHandleScopeActive
    (set_reusable_handle_scope_active K_Code true
       (example_thread (Mutex := unit) (RuntimeEntryName := unit)
          (LeafRuntimeEntryName := unit) 1 7 tt)).
Proof.
  apply (scope_active_test_order_independent unit unit unit).
  intros k. destruct k; simpl; tauto.
Defined.

(** At depth 0 on a 64-bit debug build an increment followed by a
    decrement gives the thread back. *)
Lemma depth_increment_decrement_round_trip_witness :
  (t1 <- IncrementNoHandleScopeDepth true 64
           (example_thread (Mutex := unit) (RuntimeEntryName := unit)
              (LeafRuntimeEntryName := unit) 1 7 tt) ;;
   DecrementNoHandleScopeDepth true 64 t1) = Some (example_thread 1 7 tt).
Proof.
  assert (Hbits : 32 <= 64) by lia.
  apply (proj1 (depth_increment_decrement_round_trip true 64 unit unit unit
                  Hbits (example_thread 1 7 tt))).
  unfold INT_MAX. simpl. lia.
Defined.

(** Three handle scopes opened and closed again leave the state as it
    was. *)
Lemma nested_scopes_unwind_witness :
  run true 64 1 3
    (repeat Op_IncrementNoHandleScopeDepth 3 ++
     repeat Op_DecrementNoHandleScopeDepth 3)
    (example_vm (Mutex := unit) (RuntimeEntryName := unit)
       (LeafRuntimeEntryName := unit) 1 7 tt)
  = Some (example_vm 1 7 tt).
Proof.
  assert (Hbits : 32 <= 64) by lia.
  apply (proj1 (nested_scopes_unwind true 64 unit unit unit 1 3 Hbits
                  3%nat (example_vm 1 7 tt))).
  - simpl. lia.
  - unfold INT_MAX. simpl. lia.
Defined.

(** One increment and two decrements from depth 0 fail. *)
Lemma unbalanced_depth_calls_fail_witness :
  run true 64 1 3
    (map op_of_depth_call
       [Call_IncrementNoHandleScopeDepth; Call_DecrementNoHandleScopeDepth;
        Call_DecrementNoHandleScopeDepth])
    (example_vm (Mutex := unit) (RuntimeEntryName := unit)
       (LeafRuntimeEntryName := unit) 1 7 tt)
  = None.
Proof.
  assert (Hbits : 32 <= 64) by lia.
  apply (unbalanced_depth_calls_fail true 64 unit unit unit 1 3 eq_refl
           Hbits).
  - unfold depths_in_range, INT_MAX. simpl. lia.
  - left. unfold net_handle_scope_depth, calls_of. simpl. lia.
Defined.

(** A member value of 5 is read back as 5. *)
Lemma depth_getters_against_members_witness :
  no_handle_scope_depth true
    (with_state_ (State.set_no_handle_scope_depth 5 State.zero)
       (example_thread (Mutex := unit) (RuntimeEntryName := unit)
          (LeafRuntimeEntryName := unit) 1 7 tt)) = 5.
Proof.
  apply (proj2 (proj1 (proj2
           (depth_getters_against_members true unit unit unit eq_refl
              (with_state_ (State.set_no_handle_scope_depth 5 State.zero)
                 (example_thread 1 7 tt)))))).
  simpl. lia.
Defined.

(** A run that fails at a decrement at depth 0: the build is a debug build
    and the sequence has a depth call. *)
Lemma inline_run_fails_only_at_depth_assertion_witness :
  true = true /\
  existsb is_depth_op [I_set_vm_tag 9; I_DecrementNoHandleScopeDepth] = true.
Proof.
  exact (inline_run_fails_only_at_depth_assertion true 64 unit unit unit 1 3
           [I_set_vm_tag 9; I_DecrementNoHandleScopeDepth]
           (example_vm 1 7 tt) eq_refl).
Defined.

(** Setters, a depth call and [ClearState] on a thread attached to isolate
    100 leave it attached to isolate 100 with the same buffer block. *)
Lemma inline_run_keeps_fixed_members_witness :
  exists vm : VM unit unit unit,
    run true 64 1 3
      (map op_of_inline
         [I_set_top_resource 5; I_IncrementNoHandleScopeDepth; I_ClearState;
          I_set_vm_tag 9])
      (example_attached_vm 1 7 tt 100) = Some vm /\
    isolate_ (thread vm) = 100 /\
    store_buffer_block_ (thread vm) = Some [] /\
    attach vm = AttachedAsMutator.
Proof.
  destruct (run true 64 1 3 _ (example_attached_vm 1 7 tt 100))
    as [vm|] eqn:Hrun.
  - exists vm. split; [reflexivity|].
    destruct (inline_run_keeps_fixed_members true 64 unit unit unit 1 3
                _ _ _ Hrun) as [Hfixed [_ [Hattach _]]].
    unfold same_fixed_members in Hfixed.
    destruct Hfixed as (_ & _ & _ & Hisolate & _ & _ & Hblock & _).
    split; [exact Hisolate|]. split; [exact Hblock | exact Hattach].
  - vm_compute in Hrun. discriminate Hrun.
Defined.

(** After setters and an increment, clearing the state gives what clearing
    the untouched thread gives. *)
Lemma ClearState_absorbs_state_ops_witness :
  exists vm : VM unit unit unit,
    run true 64 1 3
      (map op_of_inline
         [I_set_top_resource 5; I_IncrementNoHandleScopeDepth; I_set_zone 3])
      (example_vm 1 7 tt) = Some vm /\
    ClearState (thread vm) = ClearState (thread (example_vm 1 7 tt)).
Proof.
  destruct (run true 64 1 3 _ (example_vm 1 7 tt)) as [vm|] eqn:Hrun.
  - exists vm. split; [reflexivity|].
    exact (proj1 (ClearState_absorbs_state_ops true 64 unit unit unit 1 3
                    [I_set_top_resource 5; I_IncrementNoHandleScopeDepth;
                     I_set_zone 3]
                    (example_vm 1 7 tt) vm eq_refl Hrun)).
  - vm_compute in Hrun. discriminate Hrun.
Defined.

(** The tag written last wins; the resource set before [ClearState] is
    gone and the jump base set after it stays. *)
Lemma getters_return_latest_write_witness :
  exists vm : VM unit unit unit,
    run true 64 1 3
      (map op_of_inline
         [I_set_top_resource 5; I_set_vm_tag 9; I_ClearState;
          I_set_long_jump_base 4; I_set_vm_tag 2])
      (example_vm 1 7 tt) = Some vm /\
    vm_tag (thread vm) = 2 /\
    top_resource (thread vm) = NULL /\
    long_jump_base (thread vm) = 4.
Proof.
  destruct (run true 64 1 3 _ (example_vm 1 7 tt)) as [vm|] eqn:Hrun.
  - exists vm. split; [reflexivity|].
    exact (getters_return_latest_write true 64 unit unit unit 1 3
             [I_set_top_resource 5; I_set_vm_tag 9; I_ClearState;
              I_set_long_jump_base 4; I_set_vm_tag 2]
             (example_vm 1 7 tt) vm Hrun).
  - vm_compute in Hrun. discriminate Hrun.
Defined.

(** An increment of the handle-scope depth leaves the resource chain head
    and the attach state alone. *)
Lemma depth_call_writes_its_counter_only_witness :
  exists vm : VM unit unit unit,
    step true 64 1 3 Op_IncrementNoHandleScopeDepth
      (example_attached_vm 1 7 tt 100) = Some vm /\
    top_resource (thread vm) = NULL /\
    attach vm = AttachedAsMutator.
Proof.
  destruct (step true 64 1 3 Op_IncrementNoHandleScopeDepth
              (example_attached_vm 1 7 tt 100)) as [vm|] eqn:Hstep.
  - exists vm. split; [reflexivity|].
    destruct (depth_call_writes_its_counter_only true 64 unit unit unit 1 3
                Call_IncrementNoHandleScopeDepth
                (example_attached_vm 1 7 tt 100) vm Hstep)
      as [[Hmembers _] [Hattach _]].
    split; [|exact Hattach].
    apply (Hmembers S_top_resource). discriminate.
  - vm_compute in Hstep. discriminate Hstep.
Defined.
